(** * motoPlayer: the two-wire bus protocol between the NodeMCU coordinator
      (motoMCU/src/main.cpp) and the Arduino UNO peripheral
      (motoUNO/src/main.cpp).

    Both programs are embedded as pure state-passing functions.  Every
    global variable of a sketch is a field of its [State] record, every
    value a handler obtains from hardware (the clock, a sensor, the bus) is
    an argument of the handler, and every effect a handler has on hardware
    (a bus write, an actuator call, a log line) is returned next to the new
    state.

    A handler is given one clock value per activation: the [millis()] of
    its interval test and the [millis()] it stores right after are read
    within the same millisecond and are the one argument [now].  Serial
    output of the peripheral is left out; that of the coordinator's gated
    tasks is kept, since the link-health log is part of what is verified. *)

From Stdlib Require Import ZArith QArith Bool Lia.
From Stdlib Require Import Strings.String Strings.Ascii.
From stdpp Require Import base list.

Local Open Scope Z_scope.

(** ** Machine integers shared by both sketches *)

(** [unsigned long] is 32 bits wide on the AVR and on the ESP8266. *)
Definition ULONG_MOD : Z := 2 ^ 32.

(** [(byte) x]: conversion to [uint8_t] keeps the low eight bits. *)
Definition to_byte (x : Z) : Z := x mod 256.

(** [(char) x] on a byte read from the bus: [char] is signed. *)
Definition to_char (x : Z) : Z :=
  let b := to_byte x in if b <? 128 then b else b - 256.

(** [(int16_t) x]: two's complement wrap-around. *)
Definition to_int16 (x : Z) : Z := (x + 32768) mod 65536 - 32768.

(** [millis() - last] on [unsigned long]: subtraction modulo 2^32. *)
Definition elapsed (now last : Z) : Z := (now - last) mod ULONG_MOD.

(** Reading [a[i]] from a [byte] array held as a list: an element of such
    an array is a byte, a read past the bytes supplied yields zero. *)
Definition byte_at (a : list Z) (i : nat) : Z := to_byte (nth i a 0).

(** ** The peripheral (Arduino UNO, I2C slave) *)

Module UNO.

Definition I2C_PACKET_SIZE : nat := 10.
Definition FLAG_IDLE : Z := 0.
Definition FLAG_RFID_NEW : Z := 1.
Definition FLAG_ENV_NEW : Z := 2.
Definition RFID_CHECK_INTERVAL_MS : Z := 200.
Definition ENV_CHECK_INTERVAL_MS : Z := 2500.

(** The globals of the sketch. *)
Record State : Type := mkState {
  newCardDataAvailable : bool;
  newENVDataAvailable : bool;
  IsCMD : bool;
  command_to_run : Z;
  command_param : Z;
  payload : list Z;
  lastRfidCheckMillis : Z;
  lastENVCheckMillis : Z
}.

(** State at the end of static initialisation. *)
Definition init : State :=
  {| newCardDataAvailable := false;
     newENVDataAvailable := false;
     IsCMD := false;
     command_to_run := 0;
     command_param := 0;
     payload := replicate I2C_PACKET_SIZE 0;
     lastRfidCheckMillis := 0;
     lastENVCheckMillis := 0 |}.

(** [mfrc522.uid] after a successful [PICC_ReadCardSerial]. *)
Record Uid : Type := mkUid { size : Z; uidByte : list Z }.

(** What the DHT driver and the ADC returned to [handleENVSensor].
    The two floating-point reads enter the model after the casts the
    function applies to them: [dht_temp_x10] is the integer
    [(int16_t)(temp_f * 10)] is computed from, [dht_humid] the integer
    [(byte)humid_f] is computed from.  [DhtNaN] is a read for which
    [isnan(temp_f) || isnan(humid_f)] holds. *)
Inductive DhtRead : Type :=
| DhtNaN
| DhtOk (dht_temp_x10 dht_humid : Z).

(** Calls made on the DFPlayer. *)
Inductive Actuator : Type :=
| play (track : Z)
| volumeUp
| volumeDown.

(** The loop of [handleRFID] over [i = 0 .. I2C_PACKET_SIZE - 2]. *)
Definition copy_uid (uid : Uid) (p : list Z) : list Z :=
  foldl (fun (p : list Z) (i : nat) =>
           if Z.of_nat i <? size uid
           then <[S i := byte_at (uidByte uid) i]> p
           else <[S i := 0]> p)
        p (seq 0 (I2C_PACKET_SIZE - 1)).

(** [handleRFID]; [card] is [Some uid] when
    [PICC_IsNewCardPresent() && PICC_ReadCardSerial()] holds. *)
Definition handleRFID (now : Z) (card : option Uid) (s : State) : State :=
  if elapsed now (lastRfidCheckMillis s) <? RFID_CHECK_INTERVAL_MS then s
  else
    let s1 := mkState (newCardDataAvailable s) (newENVDataAvailable s)
                      (IsCMD s) (command_to_run s) (command_param s)
                      (payload s) now (lastENVCheckMillis s) in
    if newCardDataAvailable s1 then s1
    else match card with
         | None => s1
         | Some uid =>
             if 0 <? size uid then
               mkState true (newENVDataAvailable s1)
                       (IsCMD s1) (command_to_run s1) (command_param s1)
                       (copy_uid uid (<[0%nat := FLAG_RFID_NEW]> (payload s1)))
                       (lastRfidCheckMillis s1) (lastENVCheckMillis s1)
             else s1
         end.

(** The trailing loop of [handleENVSensor] over [i = 6 .. 9]. *)
Definition zero_tail (p : list Z) : list Z :=
  foldl (fun (p : list Z) (i : nat) => <[i := 0]> p)
        p (seq 6 (I2C_PACKET_SIZE - 6)).

(** [handleENVSensor]; [light_i] is the result of [analogRead]. *)
Definition handleENVSensor (now : Z) (dht : DhtRead) (light_i : Z)
    (s : State) : State :=
  if elapsed now (lastENVCheckMillis s) <? ENV_CHECK_INTERVAL_MS then s
  else
    let s1 := mkState (newCardDataAvailable s) (newENVDataAvailable s)
                      (IsCMD s) (command_to_run s) (command_param s)
                      (payload s) (lastRfidCheckMillis s) now in
    if newENVDataAvailable s1 then s1
    else match dht with
         | DhtNaN => s1
         | DhtOk t h =>
             let p0 := <[0%nat := FLAG_ENV_NEW]> (payload s1) in
             let temp_i16 := to_int16 t in
             let p1 := <[1%nat := to_byte (Z.shiftr temp_i16 8)]> p0 in
             let p2 := <[2%nat := to_byte (Z.land temp_i16 255)]> p1 in
             let p3 := <[3%nat := to_byte h]> p2 in
             let light_i16 := to_int16 light_i in
             let p4 := <[4%nat := to_byte (Z.shiftr light_i16 8)]> p3 in
             let p5 := <[5%nat := to_byte (Z.land light_i16 255)]> p4 in
             mkState (newCardDataAvailable s1) true
                     (IsCMD s1) (command_to_run s1) (command_param s1)
                     (zero_tail p5)
                     (lastRfidCheckMillis s1) (lastENVCheckMillis s1)
         end.

(** [requestEvent]: the bytes handed to [Wire.write], and the new state. *)
Definition requestEvent (s : State) : list Z * State :=
  if newCardDataAvailable s then
    (take I2C_PACKET_SIZE (payload s),
     mkState false (newENVDataAvailable s)
             (IsCMD s) (command_to_run s) (command_param s)
             (payload s) (lastRfidCheckMillis s) (lastENVCheckMillis s))
  else if newENVDataAvailable s then
    (take I2C_PACKET_SIZE (payload s),
     mkState (newCardDataAvailable s) false
             (IsCMD s) (command_to_run s) (command_param s)
             (payload s) (lastRfidCheckMillis s) (lastENVCheckMillis s))
  else
    (FLAG_IDLE :: replicate (I2C_PACKET_SIZE - 1) 0, s).

(** [handleCommands]: the DFPlayer calls made, and the new state. *)
Definition handleCommands (s : State) : list Actuator * State :=
  if negb (IsCMD s) then ([], s)
  else
    let acts :=
      if command_to_run s =? 80 (* 'P' *) then [play (command_param s)]
      else if command_to_run s =? 43 (* '+' *) then [volumeUp]
      else if command_to_run s =? 45 (* '-' *) then [volumeDown]
      else [] in
    (acts,
     mkState (newCardDataAvailable s) (newENVDataAvailable s)
             false (command_to_run s) (command_param s)
             (payload s) (lastRfidCheckMillis s) (lastENVCheckMillis s)).

(** [receiveEvent]; [rx] is the receive buffer of the bus driver, so that
    [Wire.available()] is its length and [Wire.read()] takes its head. *)
Definition receiveEvent (rx : list Z) (s : State) : State :=
  match rx with
  | [] => s
  | b :: rest =>
      let command := to_char b in
      let param :=
        if command =? 80 (* 'P' *) then
          match rest with
          | [] => command_param s
          | t :: _ => to_byte t
          end
        else if command =? 43 (* '+' *) then 0
        else if command =? 45 (* '-' *) then 0
        else command_param s in
      mkState (newCardDataAvailable s) (newENVDataAvailable s)
              true command param
              (payload s) (lastRfidCheckMillis s) (lastENVCheckMillis s)
  end.

(** One activation of a handler: the three calls of [loop] and the two
    bus callbacks, each with what the hardware hands it. *)
Inductive Event : Type :=
| EvRFID (now : Z) (card : option Uid)
| EvENV (now : Z) (dht : DhtRead) (light_i : Z)
| EvCommands
| EvRequest
| EvReceive (rx : list Z).

Definition step (s : State) (e : Event) : State :=
  match e with
  | EvRFID now card => handleRFID now card s
  | EvENV now dht light_i => handleENVSensor now dht light_i s
  | EvCommands => snd (handleCommands s)
  | EvRequest => snd (requestEvent s)
  | EvReceive rx => receiveEvent rx s
  end.

Definition run (es : list Event) : State := foldl step init es.

(** The states the sketch can be in. *)
Definition reachable (s : State) : Prop := exists es, s = run es.

(** A frame is the Idle frame when its kind tag is [FLAG_IDLE]. *)
Definition is_idle (frame : list Z) : bool := byte_at frame 0 =? FLAG_IDLE.


End UNO.

(** ** The coordinator (NodeMCU, I2C master) *)

Module MCU.

Definition UNO_I2C_ADDRESS : Z := 8.
Definition I2C_CHECK_INTERVAL_MS : Z := 500.
Definition WIFI_RECONNECT_INTERVAL_MS : Z := 10000.
Definition HIGH : Z := 1.
Definition LOW : Z := 0.

(** The globals of the sketch that the bus poll, the reconnect task and
    the indicator functions touch. *)
Record State : Type := mkState {
  lastWifiCheckMillis : Z;
  isUnoOnline : bool;
  lastI2CCheckMillis : Z;
  lastRfidFromUno : string;
  isBlinking : bool;
  currentTemperature : Q;
  currentHumidity : Q;
  lightLevel : Z;
  blinkPin : ascii;
  blinkInterval : Z;
  previousBlinkMillis : Z;
  blinkLedState : Z
}.

(** State at the end of static initialisation. *)
Definition init : State :=
  {| lastWifiCheckMillis := 0;
     isUnoOnline := false;
     lastI2CCheckMillis := 0;
     lastRfidFromUno := "N/A";
     isBlinking := false;
     currentTemperature := (-999) # 1;
     currentHumidity := 0 # 1;
     lightLevel := 0;
     blinkPin := " ";
     blinkInterval := 0;
     previousBlinkMillis := 0;
     blinkLedState := 1 |}.

Inductive Pin : Type := LED_G_PIN | LED_B_PIN.

(** The lines the two tasks print on the serial console. *)
Inductive LogLine : Type :=
| LogOnline                              (* "I2C: Online." *)
| LogLost (response_bytes : Z)           (* "I2C: Connection lost, ..." *)
| LogRfid (uid : string)                 (* ">>> Received RFID: ..." *)
| LogEnv (temp : Q) (humid : Z) (light : Z)  (* ">>> Received ENV: ..." *)
| LogPreserved                           (* ">>> Received Preserved CMD, ..." *)
| LogWifiDisconnected.                   (* "Wi-Fi Disconnected. ..." *)

(** What a task does to the world outside the globals. *)
Inductive Effect : Type :=
| Println (l : LogLine)
| RequestFrom (address quantity : Z)
| DigitalWrite (pin : Pin) (level : Z)
| Delay (ms : Z)
| WifiStatus
| WifiReconnect.

(** [utoa]: the digits of [v] in [base], least significant first, pushed
    in front of [acc]; the do-while loop ends when the quotient is zero. *)
Definition digit_char (d : Z) : ascii :=
  if d <? 10 then ascii_of_N (Z.to_N (48 + d))       (* '0' + d *)
  else ascii_of_N (Z.to_N (97 + d - 10)).            (* 'a' + d - 10 *)

Fixpoint utoa_loop (fuel : nat) (v base : Z) (acc : string) : string :=
  match fuel with
  | O => acc
  | S fuel' =>
      let acc' := String (digit_char (v mod base)) acc in
      if v / base =? 0 then acc' else utoa_loop fuel' (v / base) base acc'
  end.

(** [String(b, HEX)] for an [unsigned char]: at most eight digits in any
    base, two in base 16. *)
Definition String_of_byte (b base : Z) : string :=
  utoa_loop 8 b base EmptyString.

(** [toupper] and [String::toUpperCase]. *)
Definition toupper (c : ascii) : ascii :=
  let n := N_of_ascii c in
  if ((97 <=? n) && (n <=? 122))%N then ascii_of_N (n - 32) else c.

Fixpoint toUpperCase (s : string) : string :=
  match s with
  | EmptyString => EmptyString
  | String c s' => String (toupper c) (toUpperCase s')
  end.

(** The loop [for (int i = 1; i < 5; i++)] that builds [uidString]. *)
Definition uid_loop (packetBuffer : list Z) : string :=
  foldl (fun (uidString : string) (i : nat) =>
           let b := byte_at packetBuffer i in
           let uidString := append uidString (if b <? 16 then "0" else "") in
           append uidString (String_of_byte b 16))
        EmptyString (seq 1 4).

(** The [switch] on a channel letter that [setLED] and [handleBlink]
    share: 'G' or 'g', 'B' or 'b', 'A' or 'a' for both, nothing else. *)
Definition channel_writes (pin : ascii) (level : Z) : list Effect :=
  let n := N_of_ascii pin in
  if ((n =? 71) || (n =? 103))%N then [DigitalWrite LED_G_PIN level]
  else if ((n =? 66) || (n =? 98))%N then [DigitalWrite LED_B_PIN level]
  else if ((n =? 65) || (n =? 97))%N
       then [DigitalWrite LED_G_PIN level; DigitalWrite LED_B_PIN level]
  else [].

(** [setLED]: the level written is the inverse of [status]. *)
Definition setLED (pin : ascii) (status : Z) (s : State)
    : State * list Effect :=
  let s1 := mkState (lastWifiCheckMillis s) (isUnoOnline s)
                    (lastI2CCheckMillis s) (lastRfidFromUno s) false
                    (currentTemperature s) (currentHumidity s)
                    (lightLevel s) (blinkPin s) (blinkInterval s)
                    (previousBlinkMillis s) (blinkLedState s) in
  let output := if status =? HIGH then LOW else HIGH in
  (s1, channel_writes pin output).

(** [startBlinkingLED]; [ms] is a [uint16_t]. *)
Definition startBlinkingLED (pin : ascii) (ms : Z) (s : State) : State :=
  mkState (lastWifiCheckMillis s) (isUnoOnline s)
          (lastI2CCheckMillis s) (lastRfidFromUno s) true
          (currentTemperature s) (currentHumidity s)
          (lightLevel s) pin (ms mod 65536) 0 HIGH.

(** [handleBlink]; [!blinkLedState] stored in a [uint8_t] is 1 for 0 and
    0 for anything else. *)
Definition handleBlink (now : Z) (s : State) : State * list Effect :=
  if negb (isBlinking s) then (s, [])
  else
    let currentMillis := now in
    if elapsed currentMillis (previousBlinkMillis s) >=? blinkInterval s then
      let toggled := if blinkLedState s =? 0 then 1 else 0 in
      (mkState (lastWifiCheckMillis s) (isUnoOnline s)
               (lastI2CCheckMillis s) (lastRfidFromUno s) (isBlinking s)
               (currentTemperature s) (currentHumidity s)
               (lightLevel s) (blinkPin s) (blinkInterval s)
               currentMillis toggled,
       channel_writes (blinkPin s) toggled)
    else (s, []).

(** [handleWiFiReconnect]; [connected] is [WiFi.status() == WL_CONNECTED]. *)
Definition handleWiFiReconnect (now : Z) (connected : bool) (s : State)
    : State * list Effect :=
  if elapsed now (lastWifiCheckMillis s) >=? WIFI_RECONNECT_INTERVAL_MS then
    let s1 := mkState now (isUnoOnline s)
                      (lastI2CCheckMillis s) (lastRfidFromUno s)
                      (isBlinking s) (currentTemperature s)
                      (currentHumidity s) (lightLevel s)
                      (blinkPin s) (blinkInterval s)
                      (previousBlinkMillis s) (blinkLedState s) in
    (s1, WifiStatus ::
         (if negb connected
          then [Println LogWifiDisconnected; WifiReconnect] else []))
  else (s, []).

(** The [switch (statusFlag)] of the poll: the globals it assigns and the
    line it prints. *)
Definition apply_frame (packetBuffer : list Z) (s : State)
    : State * list Effect :=
  let statusFlag := byte_at packetBuffer 0 in
  if statusFlag =? 1 then
    let uidString := toUpperCase (uid_loop packetBuffer) in
    (mkState (lastWifiCheckMillis s) (isUnoOnline s)
             (lastI2CCheckMillis s) uidString
             (isBlinking s) (currentTemperature s)
             (currentHumidity s) (lightLevel s)
             (blinkPin s) (blinkInterval s)
             (previousBlinkMillis s) (blinkLedState s),
     [Println (LogRfid uidString)])
  else if statusFlag =? 2 then
    let temp_f :=
      Qmake (Z.lor (Z.shiftl (byte_at packetBuffer 1) 8)
                   (byte_at packetBuffer 2)) 10 in
    let humid_f := byte_at packetBuffer 3 in
    let light_i :=
      Z.lor (Z.shiftl (byte_at packetBuffer 4) 8) (byte_at packetBuffer 5) in
    (mkState (lastWifiCheckMillis s) (isUnoOnline s)
             (lastI2CCheckMillis s) (lastRfidFromUno s)
             (isBlinking s) temp_f (inject_Z humid_f) light_i
             (blinkPin s) (blinkInterval s)
             (previousBlinkMillis s) (blinkLedState s),
     [Println (LogEnv temp_f humid_f light_i)])
  else (s, [Println LogPreserved]).

(** [handleI2CCommunication]; [resp] holds the bytes the peripheral
    returned for this request, so that [Wire.requestFrom] (which never
    returns more than the ten bytes asked for) yields its length. *)
Definition handleI2CCommunication (now : Z) (resp : list Z) (s : State)
    : State * list Effect :=
  if elapsed now (lastI2CCheckMillis s) >=? I2C_CHECK_INTERVAL_MS then
    let request := RequestFrom UNO_I2C_ADDRESS 10 in
    let error := Z.of_nat (length resp) in
    if error =? 10 then
      let gained := if negb (isUnoOnline s) then [Println LogOnline] else [] in
      let s1 := mkState (lastWifiCheckMillis s) true
                        now (lastRfidFromUno s)
                        (isBlinking s) (currentTemperature s)
                        (currentHumidity s) (lightLevel s)
                        (blinkPin s) (blinkInterval s)
                        (previousBlinkMillis s) (blinkLedState s) in
      let packetBuffer := resp in
      if byte_at packetBuffer 0 =? 0 then (s1, request :: gained)
      else
        let '(s2, printed) := apply_frame packetBuffer s1 in
        let '(s3, w1) := setLED "B" HIGH s2 in
        let '(s4, w2) := setLED "B" LOW s3 in
        (s4, request :: gained ++ printed ++ w1 ++ [Delay 10] ++ w2)
    else
      let lost := if isUnoOnline s then [Println (LogLost error)] else [] in
      (mkState (lastWifiCheckMillis s) false
               now "N/A"
               (isBlinking s) (currentTemperature s)
               (currentHumidity s) (lightLevel s)
               (blinkPin s) (blinkInterval s)
               (previousBlinkMillis s) (blinkLedState s),
       request :: lost)
  else (s, []).

(** A run of the poll task over successive activations, each with the
    clock value it reads and the bytes the bus returns if it polls. *)
Fixpoint run_polls (s : State) (ticks : list (Z * list Z))
    : State * list Effect :=
  match ticks with
  | [] => (s, [])
  | (now, resp) :: rest =>
      let '(s1, out1) := handleI2CCommunication now resp s in
      let '(s2, out2) := run_polls s1 rest in
      (s2, out1 ++ out2)
  end.

(** The two lines that report a change of link state. *)
Definition is_link_line (e : Effect) : bool :=
  match e with
  | Println LogOnline => true
  | Println (LogLost _) => true
  | _ => false
  end.

Definition link_lines (out : list Effect) : list Effect :=
  List.filter is_link_line out.

(** The successive values of [isUnoOnline] along a run, the first one
    included. *)
Fixpoint link_states (s : State) (ticks : list (Z * list Z)) : list bool :=
  isUnoOnline s ::
  match ticks with
  | [] => []
  | (now, resp) :: rest =>
      link_states (fst (handleI2CCommunication now resp s)) rest
  end.

(** Number of places where a list of flags changes value. *)
Fixpoint flips (l : list bool) : nat :=
  match l with
  | a :: ((b :: _) as tl) => (if Bool.eqb a b then 0 else 1) + flips tl
  | _ => 0
  end.

(** [setSolidLEDColor]: both channels are written, a lit channel low. *)
Definition setSolidLEDColor (g b : bool) (s : State)
    : State * list Effect :=
  (mkState (lastWifiCheckMillis s) (isUnoOnline s)
           (lastI2CCheckMillis s) (lastRfidFromUno s) false
           (currentTemperature s) (currentHumidity s)
           (lightLevel s) (blinkPin s) (blinkInterval s)
           (previousBlinkMillis s) (blinkLedState s),
   [DigitalWrite LED_G_PIN (if g then LOW else HIGH);
    DigitalWrite LED_B_PIN (if b then LOW else HIGH)]).

(** What the command path does to the world: the line it prints, the
    bytes of one write transaction to the peripheral (from
    [beginTransmission] to [endTransmission]), and the indicator pulse. *)
Inductive CommandEffect : Type :=
| LogSendPlay (trackNumber : Z)          (* "<<< Send CMD: Play track" n *)
| LogSendVolume (vol : ascii)            (* "<<< Send CMD: Volume" c *)
| Transmission (address : Z) (bytes : list Z)
| Indicator (e : Effect).

(** The pulse [setLED('G', HIGH); delay(10); setLED('G', LOW)]. *)
Definition green_pulse (s : State) : State * list Effect :=
  let '(s1, w1) := setLED "G" HIGH s in
  let '(s2, w2) := setLED "G" LOW s1 in
  (s2, w1 ++ [Delay 10] ++ w2).

(** [playTrack]; the argument is converted to [byte] by the call. *)
Definition playTrack (n : Z) (s : State) : State * list CommandEffect :=
  let trackNumber := to_byte n in
  if negb (isUnoOnline s) then (s, [])
  else
    let '(s1, pulse) := green_pulse s in
    (s1, LogSendPlay trackNumber
         :: Transmission UNO_I2C_ADDRESS [80 (* 'P' *); trackNumber]
         :: map Indicator pulse).

(** [chgVol]: the transaction is opened and closed whatever [vol] is;
    only '+' and '-' put a byte in it. *)
Definition chgVol (vol : ascii) (s : State) : State * list CommandEffect :=
  if negb (isUnoOnline s) then (s, [])
  else
    let n := N_of_ascii vol in
    let bytes :=
      if (n =? 43)%N then [43]
      else if (n =? 45)%N then [45]
      else [] in
    let '(s1, pulse) := green_pulse s in
    (s1, LogSendVolume vol
         :: Transmission UNO_I2C_ADDRESS bytes
         :: map Indicator pulse).

(** The replies of the command routes of the web server. *)
Inductive Reply : Type :=
| PlaySent (trackId : Z)     (* 200, "Play command for track n sent to UNO." *)
| InvalidTrack               (* 400, "Invalid track number." *)
| MissingTrack               (* 400, "Missing 'track' parameter." *)
| Done.                      (* 200, no body *)

Definition status_code (r : Reply) : Z :=
  match r with
  | PlaySent _ => 200
  | InvalidTrack => 400
  | MissingTrack => 400
  | Done => 200
  end.

(** The route /api/play; [track] is [None] when the request has no
    parameter of that name, and otherwise holds the [int] that
    [String::toInt] made of its value. *)
Definition api_play (track : option Z) (s : State)
    : State * Reply * list CommandEffect :=
  match track with
  | Some trackId =>
      if trackId >? 0 then
        let '(s1, out) := playTrack trackId s in (s1, PlaySent trackId, out)
      else (s, InvalidTrack, [])
  | None => (s, MissingTrack, [])
  end.

(** The routes /api/vol_up and /api/vol_down. *)
Definition api_vol (vol : ascii) (s : State)
    : State * Reply * list CommandEffect :=
  let '(s1, out) := chgVol vol s in (s1, Done, out).

(** The route /api/stop_blink. *)
Definition api_stop_blink (s : State) : State * Reply * list Effect :=
  let s0 := mkState (lastWifiCheckMillis s) (isUnoOnline s)
                    (lastI2CCheckMillis s) (lastRfidFromUno s) false
                    (currentTemperature s) (currentHumidity s)
                    (lightLevel s) (blinkPin s) (blinkInterval s)
                    (previousBlinkMillis s) (blinkLedState s) in
  let '(s1, out) := setSolidLEDColor false false s0 in (s1, Done, out).

(** The bytes of the write transactions among the effects of a command. *)
Definition transmissions (out : list CommandEffect) : list (list Z) :=
  flat_map (fun e => match e with
                     | Transmission _ bytes => [bytes]
                     | _ => []
                     end) out.

(** One activation of a function of the sketch that touches the globals
    modelled here, with arbitrary arguments: the tasks of [loop], the
    indicator functions, the two command functions and the routes. *)
Inductive Event : Type :=
| EvPoll (now : Z) (resp : list Z)
| EvWifi (now : Z) (connected : bool)
| EvBlink (now : Z)
| EvSetLED (pin : ascii) (status : Z)
| EvSetSolid (g b : bool)
| EvStartBlink (pin : ascii) (ms : Z)
| EvPlayTrack (n : Z)
| EvChgVol (vol : ascii)
| EvApiPlay (track : option Z)
| EvApiStopBlink.

Definition step (s : State) (e : Event) : State :=
  match e with
  | EvPoll now resp => fst (handleI2CCommunication now resp s)
  | EvWifi now connected => fst (handleWiFiReconnect now connected s)
  | EvBlink now => fst (handleBlink now s)
  | EvSetLED pin status => fst (setLED pin status s)
  | EvSetSolid g b => fst (setSolidLEDColor g b s)
  | EvStartBlink pin ms => startBlinkingLED pin ms s
  | EvPlayTrack n => fst (playTrack n s)
  | EvChgVol vol => fst (chgVol vol s)
  | EvApiPlay track => fst (fst (api_play track s))
  | EvApiStopBlink => fst (fst (api_stop_blink s))
  end.

Definition run (es : list Event) : State := foldl step init es.

(** The states the coordinator can be in. *)
Definition reachable (s : State) : Prop := exists es, s = run es.

(** The loop [while (!isUnoOnline) handleI2CCommunication();] of
    [setup], run over the activations [ticks] (the clock value each one
    reads and the bytes the bus returns if it polls): [Some] of the state
    and effects at the exit of the loop, [None] if the loop is still
    spinning when the activations are used up. *)
Fixpoint wait_for_uno (ticks : list (Z * list Z)) (s : State)
    : option (State * list Effect) :=
  if isUnoOnline s then Some (s, [])
  else
    match ticks with
    | [] => None
    | (now, resp) :: rest =>
        let '(s1, out1) := handleI2CCommunication now resp s in
        match wait_for_uno rest s1 with
        | Some (s2, out2) => Some (s2, out1 ++ out2)
        | None => None
        end
    end.

(** What the request handlers may read at any time: while the link is
    down the card identifier is the sentinel, and it is never anything
    but the sentinel or eight characters. *)
Definition snapshot_inv (s : State) : Prop :=
  (isUnoOnline s = false -> lastRfidFromUno s = "N/A"%string) /\
  (lastRfidFromUno s = "N/A"%string \/
   String.length (lastRfidFromUno s) = 8%nat).

End MCU.

(** ** The rendering the specification asks for *)

(** Follows the specification's words for the card identifier (not the
    code): each byte as two hexadecimal digits, upper case, padded with
    a zero, the four bytes in order. *)
Definition spec_hex_digit_upper (d : Z) : ascii :=
  if d <? 10 then ascii_of_N (Z.to_N (48 + d))       (* '0' .. '9' *)
  else ascii_of_N (Z.to_N (65 + d - 10)).            (* 'A' .. 'F' *)

Definition spec_hex_byte (b : Z) : string :=
  String (spec_hex_digit_upper (b / 16))
         (String (spec_hex_digit_upper (b mod 16)) EmptyString).

Definition spec_card_id (b1 b2 b3 b4 : Z) : string :=
  append (spec_hex_byte b1)
         (append (spec_hex_byte b2)
                 (append (spec_hex_byte b3) (spec_hex_byte b4))).

(** ** A clock that advances in 100 ms ticks *)

(** The value [millis()] has at tick [k] when it had [t0] at tick 0. *)
Definition tick_clock (t0 : Z) (k : nat) : Z :=
  (t0 + 100 * Z.of_nat k) mod ULONG_MOD.

(** The coordinator's state when tick [n] begins: the poll task has been
    activated once at each of the ticks [0 .. n-1]; [resp k] is what the
    bus would return at tick [k]. *)
Fixpoint after_ticks (t0 : Z) (resp : nat -> list Z) (s0 : MCU.State)
    (n : nat) : MCU.State :=
  match n with
  | O => s0
  | S m =>
      fst (MCU.handleI2CCommunication (tick_clock t0 m) (resp m)
             (after_ticks t0 resp s0 m))
  end.

Definition is_request (e : MCU.Effect) : bool :=
  match e with MCU.RequestFrom _ _ => true | _ => false end.

Definition is_wifi_status (e : MCU.Effect) : bool :=
  match e with MCU.WifiStatus => true | _ => false end.

(** Whether the poll task issues a bus request at tick [n]. *)
Definition polls_at (t0 : Z) (resp : nat -> list Z) (s0 : MCU.State)
    (n : nat) : bool :=
  existsb is_request
    (snd (MCU.handleI2CCommunication (tick_clock t0 n) (resp n)
            (after_ticks t0 resp s0 n))).

(** What every reachable state satisfies: the buffer has ten bytes, and
    while an event is pending its kind tag is that of a card or of an
    environment frame. *)
Definition queue_inv (s : UNO.State) : Prop :=
  length (UNO.payload s) = UNO.I2C_PACKET_SIZE /\
  (UNO.newCardDataAvailable s = true \/ UNO.newENVDataAvailable s = true ->
   nth 0 (UNO.payload s) 0 = UNO.FLAG_RFID_NEW \/
   nth 0 (UNO.payload s) 0 = UNO.FLAG_ENV_NEW).

(** ** Sample inputs *)

(** A four-byte card serial, DE AD BE EF. *)
Definition card_DEADBEEF : UNO.Uid := UNO.mkUid 4 [222; 173; 190; 239].

(** The frames the peripheral builds for that card and for a reading of
    25.0 degrees, 50 percent, light 512. *)
Definition card_frame : list Z := [1; 222; 173; 190; 239; 0; 0; 0; 0; 0].
Definition env_frame : list Z := [2; 0; 250; 50; 2; 0; 0; 0; 0; 0].

(** An environment sample is packed at 2500 ms; a card is read at
    2700 ms, before the coordinator has polled. *)
Definition env_pending : UNO.State :=
  UNO.run [UNO.EvENV 2500 (UNO.DhtOk 250 50) 512].

Definition env_then_card : UNO.State :=
  UNO.step env_pending (UNO.EvRFID 2700 (Some card_DEADBEEF)).

(** A card is read at 200 ms; an environment sample is packed at
    2500 ms, before the coordinator has polled. *)
Definition card_pending : UNO.State :=
  UNO.run [UNO.EvRFID 200 (Some card_DEADBEEF)].

Definition card_then_env : UNO.State :=
  UNO.step card_pending (UNO.EvENV 2500 (UNO.DhtOk 250 50) 512).

(** The Idle frame, and the run of four polls Ok, Err, Err, Ok: the
    poll is due at each of the four clock values, the bus returns ten
    bytes at the first and the last and none in between. *)
Definition idle_frame : list Z := [0; 0; 0; 0; 0; 0; 0; 0; 0; 0].

Definition ok_err_err_ok : list (Z * list Z) :=
  [(500, idle_frame); (1000, []); (1500, []); (2000, idle_frame)].

(** A coordinator whose last poll was 250 ms before the 32-bit clock
    wraps to zero. *)
Definition polled_before_wrap : MCU.State :=
  MCU.mkState 0 true (ULONG_MOD - 250) "N/A" false ((-999) # 1) (0 # 1) 0
              " " 0 0 1.

(** The DHT reports -5.0 degrees and 50 percent at 2500 ms, so that
    [(int16_t)(temp_f * 10)] is -50; the coordinator, freshly started,
    polls at 500 ms of its own clock and receives the frame. *)
Definition frost_frame : list Z :=
  fst (UNO.requestEvent
         (UNO.handleENVSensor 2500 (UNO.DhtOk (-50) 50) 512 UNO.init)).

Definition after_frost_poll : MCU.State :=
  fst (MCU.handleI2CCommunication 500 frost_frame MCU.init).

(** ** The two programs on one bus *)

(** The peripheral receives, one after the other, the write transactions
    a coordinator command made. *)
Definition deliver (out : list MCU.CommandEffect) (u : UNO.State)
    : UNO.State :=
  foldl (fun u bytes => UNO.receiveEvent bytes u) u (MCU.transmissions out).

(** The byte of frame position [i + 1] for a card serial: the serial's
    byte when there is one, zero otherwise. *)
Definition uid_frame_byte (uid : UNO.Uid) (i : nat) : Z :=
  if Z.of_nat i <? UNO.size uid then byte_at (UNO.uidByte uid) i else 0.

(** Every byte of a buffer is a byte. *)
Definition all_bytes (p : list Z) : Prop :=
  Forall (fun b => 0 <= b < 256) p.

(** * Properties of the peripheral *)

Section PeripheralQueue.
Import UNO.

(** Writes at positive indices leave the kind tag and the length alone. *)
Lemma insert_pos_head (p : list Z) (i : nat) (x d : Z) :
  nth 0 (<[S i := x]> p) d = nth 0 p d.
Proof. destruct p; reflexivity. Qed.

Lemma copy_uid_head (uid : Uid) (p : list Z) :
  nth 0 (copy_uid uid p) 0 = nth 0 p 0.
Proof.
  unfold copy_uid. generalize (seq 0 (I2C_PACKET_SIZE - 1)).
  intros l. revert p.
  induction l as [|i l IH]; intros p; simpl; [reflexivity|].
  rewrite IH. destruct (Z.of_nat i <? size uid); apply insert_pos_head.
Qed.

Lemma copy_uid_length (uid : Uid) (p : list Z) :
  length (copy_uid uid p) = length p.
Proof.
  unfold copy_uid. generalize (seq 0 (I2C_PACKET_SIZE - 1)).
  intros l. revert p.
  induction l as [|i l IH]; intros p; simpl; [reflexivity|].
  rewrite IH. destruct (Z.of_nat i <? size uid); apply length_insert.
Qed.

Lemma zero_tail_head (p : list Z) : nth 0 (zero_tail p) 0 = nth 0 p 0.
Proof.
  unfold zero_tail. simpl. rewrite !insert_pos_head. reflexivity.
Qed.

Lemma zero_tail_length (p : list Z) : length (zero_tail p) = length p.
Proof.
  unfold zero_tail. simpl. rewrite !length_insert. reflexivity.
Qed.

Lemma queue_inv_init : queue_inv init.
Proof.
  split; [reflexivity|]. simpl. intros [H|H]; discriminate.
Qed.

Lemma tag_after_insert (p : list Z) (x : Z) :
  length p = I2C_PACKET_SIZE -> nth 0 (<[0%nat := x]> p) 0 = x.
Proof. destruct p; [discriminate|reflexivity]. Qed.

Lemma queue_inv_step (s : State) (e : Event) :
  queue_inv s -> queue_inv (step s e).
Proof.
  intros [Hlen Htag]. destruct e as [now card|now dht light| | |rx]; simpl.
  - unfold handleRFID.
    destruct (elapsed now (lastRfidCheckMillis s) <? RFID_CHECK_INTERVAL_MS);
      [split; assumption|]. simpl.
    destruct (newCardDataAvailable s) eqn:Hc; [split; simpl; auto|].
    destruct card as [uid|]; [|split; simpl; auto].
    destruct (0 <? size uid); [|split; simpl; auto].
    split; simpl.
    + rewrite copy_uid_length, length_insert. exact Hlen.
    + intros _. left. rewrite copy_uid_head. apply tag_after_insert, Hlen.
  - unfold handleENVSensor.
    destruct (elapsed now (lastENVCheckMillis s) <? ENV_CHECK_INTERVAL_MS);
      [split; assumption|]. simpl.
    destruct (newENVDataAvailable s) eqn:He; [split; simpl; auto|].
    destruct dht as [|t h]; [split; simpl; auto|].
    split; simpl.
    + rewrite zero_tail_length, !length_insert. exact Hlen.
    + intros _. right. rewrite zero_tail_head, !insert_pos_head.
      apply tag_after_insert, Hlen.
  - unfold handleCommands. destruct (negb (IsCMD s)); split; simpl; auto.
  - unfold requestEvent.
    destruct (newCardDataAvailable s) eqn:Hc; simpl.
    + split; simpl; auto.
    + destruct (newENVDataAvailable s) eqn:He; simpl.
      * split; simpl; auto.
      * split; [exact Hlen|]. intros [H|H]; congruence.
  - unfold receiveEvent. destruct rx; split; simpl; auto.
Qed.

Lemma reachable_queue_inv (s : State) : reachable s -> queue_inv s.
Proof.
  intros [es ->]. unfold run.
  induction es as [|e es IH] using rev_ind; simpl.
  - apply queue_inv_init.
  - rewrite foldl_snoc. apply queue_inv_step, IH.
Qed.

(** A card offer made while a card event is pending changes nothing but
    the task's own timestamp. *)
Lemma handleRFID_pending_same_kind (now : Z) (card : option Uid) (s : State) :
  newCardDataAvailable s = true ->
  let s' := handleRFID now card s in
  payload s' = payload s /\
  newCardDataAvailable s' = true /\
  newENVDataAvailable s' = newENVDataAvailable s /\
  fst (requestEvent s') = fst (requestEvent s).
Proof.
  intros Hc. unfold handleRFID.
  destruct (elapsed now (lastRfidCheckMillis s) <? RFID_CHECK_INTERVAL_MS).
  - simpl. repeat split; assumption.
  - simpl. rewrite Hc. simpl. unfold requestEvent. simpl. rewrite Hc.
    repeat split.
Qed.

(** An environment offer made while an environment event is pending
    changes nothing but the task's own timestamp. *)
Lemma handleENVSensor_pending_same_kind (now : Z) (dht : DhtRead)
    (light_i : Z) (s : State) :
  newENVDataAvailable s = true ->
  let s' := handleENVSensor now dht light_i s in
  payload s' = payload s /\
  newENVDataAvailable s' = true /\
  newCardDataAvailable s' = newCardDataAvailable s /\
  fst (requestEvent s') = fst (requestEvent s).
Proof.
  intros He. unfold handleENVSensor.
  destruct (elapsed now (lastENVCheckMillis s) <? ENV_CHECK_INTERVAL_MS).
  - simpl. repeat split; assumption.
  - simpl. rewrite He. simpl. unfold requestEvent. simpl. rewrite He.
    destruct (newCardDataAvailable s); repeat split.
Qed.

(** The response to a poll is the Idle frame exactly when nothing is
    pending. *)
Lemma requestEvent_idle_iff (s : State) :
  reachable s ->
  is_idle (fst (requestEvent s)) = true <->
  newCardDataAvailable s = false /\ newENVDataAvailable s = false.
Proof.
  intros Hr. destruct (reachable_queue_inv s Hr) as [Hlen Htag].
  assert (Hpend : newCardDataAvailable s = true \/
                  newENVDataAvailable s = true ->
                  is_idle (take I2C_PACKET_SIZE (payload s)) = false).
  { intros Hp. rewrite take_ge by (rewrite Hlen; reflexivity).
    unfold is_idle, byte_at.
    destruct (Htag Hp) as [-> | ->]; reflexivity. }
  unfold requestEvent.
  destruct (newCardDataAvailable s) eqn:Hc; simpl.
  - rewrite Hpend by (left; reflexivity). split; [discriminate|].
    intros [H _]; discriminate.
  - destruct (newENVDataAvailable s) eqn:He; simpl.
    + rewrite Hpend by (right; reflexivity). split; [discriminate|].
      intros [_ H]; discriminate.
    + split; [intros _; split; reflexivity | reflexivity].
Qed.

(** With both kinds pending, a poll clears the card flag only. *)
Lemma requestEvent_both_pending_flags (s : State) :
  newCardDataAvailable s = true ->
  newENVDataAvailable s = true ->
  newCardDataAvailable (snd (requestEvent s)) = false /\
  newENVDataAvailable (snd (requestEvent s)) = true /\
  payload (snd (requestEvent s)) = payload s.
Proof.
  intros Hc He. unfold requestEvent. rewrite Hc. simpl.
  repeat split. exact He.
Qed.

End PeripheralQueue.

Section PeripheralEvents.
Import UNO.

(** C1 (fails on the code).  The claim says that an offer never overwrites
    the stored payload of a pending event of either kind.  Both kinds are
    stored in the one [payload] buffer, and each sampling task only looks
    at the flag of its own kind.  Here an environment event is pending with
    its ten bytes stored; the card task then samples a card: the
    environment event is still flagged as pending, but the stored bytes are
    now those of the card, and the next two polls both answer with the card
    frame. *)
Theorem C1_card_offer_overwrites_pending_environment :
  reachable env_pending /\
  newENVDataAvailable env_pending = true /\
  payload env_pending = env_frame /\
  reachable env_then_card /\
  newENVDataAvailable env_then_card = true /\
  payload env_then_card = card_frame /\
  payload env_then_card <> payload env_pending /\
  fst (requestEvent env_then_card) = card_frame /\
  fst (requestEvent (snd (requestEvent env_then_card))) = card_frame.
Proof.
  split; [eexists; reflexivity|].
  split; [reflexivity|]. split; [reflexivity|].
  split.
  { exists [EvENV 2500 (DhtOk 250 50) 512;
            EvRFID 2700 (Some card_DEADBEEF)]. reflexivity. }
  split; [reflexivity|]. split; [reflexivity|].
  split; [discriminate|]. split; reflexivity.
Qed.

(** C2 (fails on the code).  The claim says that with a card event and an
    environment event both pending, the poll response is the card event's
    frame, with the card's bytes as offered.  Here a card is sampled first
    and an environment reading second: both flags are set, the buffer holds
    the environment bytes, and the poll answers with the environment frame
    while clearing the card flag; the following poll answers with the same
    environment frame again.  The card's bytes are never sent. *)
Theorem C2_both_pending_response_is_not_the_card_frame :
  reachable card_then_env /\
  payload card_pending = card_frame /\
  newCardDataAvailable card_then_env = true /\
  newENVDataAvailable card_then_env = true /\
  fst (requestEvent card_then_env) = env_frame /\
  fst (requestEvent card_then_env) <> card_frame /\
  newCardDataAvailable (snd (requestEvent card_then_env)) = false /\
  newENVDataAvailable (snd (requestEvent card_then_env)) = true /\
  fst (requestEvent (snd (requestEvent card_then_env))) = env_frame.
Proof.
  split.
  { exists [EvRFID 200 (Some card_DEADBEEF);
            EvENV 2500 (DhtOk 250 50) 512]. reflexivity. }
  split; [reflexivity|]. split; [reflexivity|]. split; [reflexivity|].
  split; [reflexivity|]. split; [discriminate|].
  repeat split.
Qed.

End PeripheralEvents.

Section PeripheralCommands.
Import UNO.

(** C6.  From any state, receiving PlayTrack with track 5 and then
    VolumeUp, with no dispatch in between, leaves the single slot holding
    VolumeUp: the flag is set, the stored tag is '+', the parameter is 0,
    and the one dispatch that follows makes the volume-up call only, then
    finds nothing pending. *)
Theorem C6_command_overwrite_last_writer_wins (s : State) :
  let s1 := receiveEvent [80; 5] s in
  let s2 := receiveEvent [43] s1 in
  (IsCMD s1 = true /\ command_to_run s1 = 80 /\ command_param s1 = 5) /\
  (IsCMD s2 = true /\ command_to_run s2 = 43 /\ command_param s2 = 0) /\
  fst (handleCommands s2) = [volumeUp] /\
  fst (handleCommands (snd (handleCommands s2))) = [].
Proof. repeat split. Qed.

(** C8.  A PlayTrack transaction that carries the tag byte alone leaves the
    stored track parameter at its previous value and still makes the
    command pending, so that the dispatch plays the stale track; when the
    track byte is present it is the one stored. *)
Theorem C8_play_track_without_parameter_keeps_previous (s : State) :
  let s1 := receiveEvent [80] s in
  (command_param s1 = command_param s /\
   IsCMD s1 = true /\ command_to_run s1 = 80 /\
   fst (handleCommands s1) = [play (command_param s)]) /\
  (forall (t : Z) (more : list Z),
     command_param (receiveEvent (80 :: t :: more) s) = to_byte t).
Proof. repeat split. Qed.

(** C10.  Every transaction with at least its tag byte stores the tag and
    sets the pending flag, whatever the tag and whatever was pending; one
    dispatch then always leaves the flag clear; and for a tag other than
    'P', '+' and '-' the receive path leaves the parameter alone and the
    dispatch makes no DFPlayer call. *)
Theorem C10_unknown_tag_is_stored_and_dispatch_clears (tag : Z)
    (rest : list Z) (s : State) :
  let s1 := receiveEvent (tag :: rest) s in
  IsCMD s1 = true /\
  command_to_run s1 = to_char tag /\
  IsCMD (snd (handleCommands s1)) = false /\
  (to_char tag <> 80 -> to_char tag <> 43 -> to_char tag <> 45 ->
   command_param s1 = command_param s /\
   fst (handleCommands s1) = []).
Proof.
  simpl. repeat split.
  - destruct (to_char tag =? 80) eqn:E; [apply Z.eqb_eq in E; contradiction|].
    destruct (to_char tag =? 43) eqn:E1; [apply Z.eqb_eq in E1; contradiction|].
    destruct (to_char tag =? 45) eqn:E2; [apply Z.eqb_eq in E2; contradiction|].
    reflexivity.
  - unfold handleCommands. simpl.
    destruct (to_char tag =? 80) eqn:E; [apply Z.eqb_eq in E; contradiction|].
    destruct (to_char tag =? 43) eqn:E1; [apply Z.eqb_eq in E1; contradiction|].
    destruct (to_char tag =? 45) eqn:E2; [apply Z.eqb_eq in E2; contradiction|].
    reflexivity.
Qed.

(** The unknown tag 'Z' arrives while PlayTrack 5 is pending. *)
Lemma C10_witness :
  let s1 := receiveEvent [90] (receiveEvent [80; 5] init) in
  IsCMD s1 = true /\
  command_to_run s1 = 90 /\
  IsCMD (snd (handleCommands s1)) = false /\
  command_param s1 = 5 /\
  fst (handleCommands s1) = [].
Proof.
  pose proof (C10_unknown_tag_is_stored_and_dispatch_clears
                90 [] (receiveEvent [80; 5] init)) as H.
  destruct H as (H1 & H2 & H3 & H4).
  destruct H4 as [H5 H6]; [discriminate | discriminate | discriminate |].
  repeat split; assumption.
Defined.


End PeripheralCommands.

(** * Properties of the coordinator *)

Section CardIdentifier.
Import MCU.

Lemma string_append_assoc (a b c : string) :
  append (append a b) c = append a (append b c).
Proof.
  induction a as [|x a IH]; simpl; [reflexivity|]. rewrite IH. reflexivity.
Qed.

Lemma toUpperCase_append (a b : string) :
  toUpperCase (append a b) = append (toUpperCase a) (toUpperCase b).
Proof.
  induction a as [|c a IH]; simpl; [reflexivity|]. rewrite IH. reflexivity.
Qed.

(** The sixteen digits: [utoa] writes them in lower case, [toupper] turns
    them into the digits the specification names. *)
Lemma toupper_digit_char (d : Z) :
  0 <= d < 16 -> toupper (digit_char d) = spec_hex_digit_upper d.
Proof.
  intros Hd.
  assert (Hc : d = 0 \/ d = 1 \/ d = 2 \/ d = 3 \/ d = 4 \/ d = 5 \/ d = 6 \/
               d = 7 \/ d = 8 \/ d = 9 \/ d = 10 \/ d = 11 \/ d = 12 \/
               d = 13 \/ d = 14 \/ d = 15) by lia.
  repeat (destruct Hc as [-> | Hc]; [reflexivity|]). subst d. reflexivity.
Qed.

(** One round of the loop body: the optional "0" followed by the digits
    of [utoa], in upper case, is the two-digit rendering. *)
Lemma padded_hex_upper (b : Z) :
  0 <= b < 256 ->
  toUpperCase (append (if b <? 16 then "0" else "") (String_of_byte b 16))
  = spec_hex_byte b.
Proof.
  intros Hb. unfold String_of_byte, spec_hex_byte. simpl utoa_loop.
  destruct (b <? 16) eqn:Hlt.
  - apply Z.ltb_lt in Hlt.
    rewrite (Z.div_small b 16) by lia. rewrite (Z.mod_small b 16) by lia.
    simpl. rewrite toupper_digit_char by lia. reflexivity.
  - apply Z.ltb_ge in Hlt.
    assert (Hq : 1 <= b / 16 < 16).
    { split; [apply Z.div_le_lower_bound; lia
             | apply Z.div_lt_upper_bound; lia]. }
    destruct (b / 16 =? 0) eqn:Hz; [apply Z.eqb_eq in Hz; lia|].
    rewrite (Z.div_small (b / 16) 16) by lia. simpl.
    rewrite (Z.mod_small (b / 16) 16) by lia.
    rewrite !toupper_digit_char by (try lia; apply Z.mod_pos_bound; lia).
    reflexivity.
Qed.

Lemma byte_at_range (a : list Z) (i : nat) : 0 <= byte_at a i < 256.
Proof. unfold byte_at, to_byte. apply Z.mod_pos_bound. lia. Qed.

(** The string built by the card branch of the poll. *)
Lemma uid_loop_upper (packetBuffer : list Z) :
  toUpperCase (uid_loop packetBuffer)
  = spec_card_id (byte_at packetBuffer 1) (byte_at packetBuffer 2)
                 (byte_at packetBuffer 3) (byte_at packetBuffer 4).
Proof.
  unfold uid_loop, spec_card_id. simpl foldl.
  rewrite <- !(padded_hex_upper (byte_at packetBuffer _))
    by apply byte_at_range.
  rewrite !toUpperCase_append.
  rewrite !string_append_assoc. reflexivity.
Qed.

End CardIdentifier.

Section BusPoll.
Import MCU.

(** C9.  When a due poll returns ten bytes whose kind tag is that of a
    card event, the identifier stored is the rendering the specification
    describes of frame bytes 1 to 4: two upper-case hexadecimal digits per
    byte, zero padded, in order.  For DE AD BE EF it is "DEADBEEF". *)
Theorem C9_card_identifier_is_upper_hex (now : Z) (resp : list Z)
    (s : State) :
  I2C_CHECK_INTERVAL_MS <= elapsed now (lastI2CCheckMillis s) ->
  length resp = 10%nat ->
  byte_at resp 0 = 1 ->
  lastRfidFromUno (fst (handleI2CCommunication now resp s))
  = spec_card_id (byte_at resp 1) (byte_at resp 2)
                 (byte_at resp 3) (byte_at resp 4)
  /\ spec_card_id 222 173 190 239 = "DEADBEEF"%string.
Proof.
  intros Hdue Hlen Htag. split; [|reflexivity].
  unfold handleI2CCommunication.
  rewrite Z.geb_leb. apply Z.leb_le in Hdue. rewrite Hdue.
  rewrite Hlen. simpl Z.eqb. cbv iota.
  rewrite Htag. simpl Z.eqb. cbv iota.
  unfold apply_frame. rewrite Htag. simpl.
  apply uid_loop_upper.
Qed.

(** The coordinator, freshly started, polls at 500 ms and receives the
    frame of the card DE AD BE EF. *)
Lemma C9_witness :
  lastRfidFromUno (fst (handleI2CCommunication 500 card_frame init))
  = "DEADBEEF"%string.
Proof.
  refine (eq_trans
            (proj1 (C9_card_identifier_is_upper_hex 500 card_frame init
                      _ _ _)) _).
  - vm_compute. discriminate.
  - reflexivity.
  - reflexivity.
  - reflexivity.
Defined.

(** C5.  A due poll that returns any number of bytes other than ten sets
    the link flag to offline and the card identifier to "N/A", and leaves
    temperature, humidity and light as they were.  The task returns
    normally: it yields a state and the effects it had, which are the bus
    request and, only if the link was up, the one line that reports the
    loss. *)
Theorem C5_short_read_goes_offline (now : Z) (resp : list Z) (s : State) :
  I2C_CHECK_INTERVAL_MS <= elapsed now (lastI2CCheckMillis s) ->
  length resp <> 10%nat ->
  let s' := fst (handleI2CCommunication now resp s) in
  isUnoOnline s' = false /\
  lastRfidFromUno s' = "N/A"%string /\
  currentTemperature s' = currentTemperature s /\
  currentHumidity s' = currentHumidity s /\
  lightLevel s' = lightLevel s /\
  snd (handleI2CCommunication now resp s)
  = RequestFrom UNO_I2C_ADDRESS 10 ::
    (if isUnoOnline s then [Println (LogLost (Z.of_nat (length resp)))]
     else []).
Proof.
  intros Hdue Hlen. unfold handleI2CCommunication.
  rewrite Z.geb_leb. apply Z.leb_le in Hdue. rewrite Hdue.
  destruct (Z.of_nat (length resp) =? 10) eqn:E.
  - apply Z.eqb_eq in E. lia.
  - simpl. repeat split.
Qed.

(** An online coordinator holding a card and a reading polls at 500 ms
    and gets three bytes back. *)
Lemma C5_witness :
  let s := mkState 0 true 0 "DEADBEEF" false (250 # 10) (50 # 1) 512
                   " " 0 0 1 in
  let s' := fst (handleI2CCommunication 500 [1; 2; 3] s) in
  isUnoOnline s' = false /\
  lastRfidFromUno s' = "N/A"%string /\
  currentTemperature s' = 250 # 10 /\
  currentHumidity s' = 50 # 1 /\
  lightLevel s' = 512.
Proof.
  pose proof (C5_short_read_goes_offline 500 [1; 2; 3]
                (mkState 0 true 0 "DEADBEEF" false (250 # 10) (50 # 1) 512
                         " " 0 0 1))
    as H.
  destruct H as (H1 & H2 & H3 & H4 & H5 & _).
  - vm_compute. discriminate.
  - simpl. lia.
  - repeat split; assumption.
Defined.

End BusPoll.

Section LinkHealth.
Import MCU.

(** The link lines of one activation of the poll task: none when the link
    flag keeps its value, the gain line when it goes up, the loss line
    with the byte count when it goes down. *)
Lemma link_lines_step (now : Z) (resp : list Z) (s : State) :
  let s' := fst (handleI2CCommunication now resp s) in
  link_lines (snd (handleI2CCommunication now resp s))
  = if Bool.eqb (isUnoOnline s) (isUnoOnline s') then []
    else if isUnoOnline s' then [Println LogOnline]
         else [Println (LogLost (Z.of_nat (length resp)))].
Proof.
  unfold handleI2CCommunication.
  destruct (elapsed now (lastI2CCheckMillis s) >=? I2C_CHECK_INTERVAL_MS).
  2:{ simpl. rewrite Bool.eqb_reflx. reflexivity. }
  destruct (Z.of_nat (length resp) =? 10).
  - destruct (byte_at resp 0 =? 0) eqn:Hidle.
    + destruct (isUnoOnline s); reflexivity.
    + unfold apply_frame.
      destruct (byte_at resp 0 =? 1); [destruct (isUnoOnline s); reflexivity|].
      destruct (byte_at resp 0 =? 2); destruct (isUnoOnline s); reflexivity.
  - destruct (isUnoOnline s); reflexivity.
Qed.

Lemma link_states_head (s : State) (ticks : list (Z * list Z)) :
  exists tl, link_states s ticks = isUnoOnline s :: tl.
Proof. destruct ticks as [|[now resp] rest]; eexists; reflexivity. Qed.

(** Along any run there are exactly as many link lines as changes of the
    link flag. *)
Lemma link_lines_count (ticks : list (Z * list Z)) :
  forall s : State,
    length (link_lines (snd (run_polls s ticks)))
    = flips (link_states s ticks).
Proof.
  induction ticks as [|[now resp] rest IH]; intros s; [reflexivity|].
  simpl run_polls.
  pose proof (link_lines_step now resp s) as Hstep.
  destruct (handleI2CCommunication now resp s) as [s1 out1] eqn:E1.
  specialize (IH s1).
  destruct (run_polls s1 rest) as [s2 out2] eqn:E2.
  simpl in Hstep, IH |- *. rewrite E1. simpl.
  unfold link_lines in *. rewrite List.filter_app, length_app, IH, Hstep.
  destruct (link_states_head s1 rest) as [tl ->].
  destruct (isUnoOnline s), (isUnoOnline s1); reflexivity.
Qed.

(** C4, as the claim states it, fails: from the initial (offline) state
    the outcomes Ok, Err, Err, Ok change the link flag three times and
    print three link lines, so there are not exactly two transitions, and
    there are more than two link lines. *)
Lemma C4_counterexample :
  flips (link_states init ok_err_err_ok) <> 2%nat /\
  ~ (length (link_lines (snd (run_polls init ok_err_err_ok))) <= 2)%nat.
Proof. split; vm_compute; [discriminate | lia]. Qed.

(** C4, amended.  From the initial (offline) state the outcomes Ok, Err,
    Err, Ok take the link flag through offline, online, offline, offline,
    online: three changes, and three link lines (gain, loss, gain), one
    fewer than the four polls.  For every run there are exactly as many
    link lines as changes of the link flag, and for every activation the
    gain line is printed only when the flag goes from offline to online
    and the loss line only when it goes from online to offline, so an
    outcome that repeats the previous one prints no link line. *)
Theorem C4_link_logging_is_edge_triggered :
  link_states init ok_err_err_ok = [false; true; false; false; true] /\
  flips (link_states init ok_err_err_ok) = 3%nat /\
  link_lines (snd (run_polls init ok_err_err_ok))
  = [Println LogOnline; Println (LogLost 0); Println LogOnline] /\
  (forall (s : State) (ticks : list (Z * list Z)),
     length (link_lines (snd (run_polls s ticks)))
     = flips (link_states s ticks)) /\
  (forall (now : Z) (resp : list Z) (s : State),
     let s' := fst (handleI2CCommunication now resp s) in
     link_lines (snd (handleI2CCommunication now resp s))
     = if Bool.eqb (isUnoOnline s) (isUnoOnline s') then []
       else if isUnoOnline s' then [Println LogOnline]
            else [Println (LogLost (Z.of_nat (length resp)))]).
Proof.
  split; [reflexivity|]. split; [reflexivity|]. split; [reflexivity|].
  split.
  - intros s ticks. apply link_lines_count.
  - intros now resp s. apply link_lines_step.
Qed.

End LinkHealth.

Section IntervalGate.
Import MCU.

Lemma poll_requests_iff_due (now : Z) (resp : list Z) (s : State) :
  existsb is_request (snd (handleI2CCommunication now resp s))
  = (I2C_CHECK_INTERVAL_MS <=? elapsed now (lastI2CCheckMillis s)).
Proof.
  unfold handleI2CCommunication. rewrite Z.geb_leb.
  destruct (I2C_CHECK_INTERVAL_MS <=? elapsed now (lastI2CCheckMillis s));
    [|reflexivity].
  destruct (Z.of_nat (length resp) =? 10); [|reflexivity].
  destruct (byte_at resp 0 =? 0); [reflexivity|].
  destruct (apply_frame resp _) as [s2 printed]. reflexivity.
Qed.

Lemma poll_timestamp (now : Z) (resp : list Z) (s : State) :
  lastI2CCheckMillis (fst (handleI2CCommunication now resp s))
  = if I2C_CHECK_INTERVAL_MS <=? elapsed now (lastI2CCheckMillis s)
    then now else lastI2CCheckMillis s.
Proof.
  unfold handleI2CCommunication. rewrite Z.geb_leb.
  destruct (I2C_CHECK_INTERVAL_MS <=? elapsed now (lastI2CCheckMillis s));
    [|reflexivity].
  destruct (Z.of_nat (length resp) =? 10); [|reflexivity].
  destruct (byte_at resp 0 =? 0); [reflexivity|].
  unfold apply_frame.
  destruct (byte_at resp 0 =? 1); [reflexivity|].
  destruct (byte_at resp 0 =? 2); reflexivity.
Qed.

Lemma poll_skipped (now : Z) (resp : list Z) (s : State) :
  elapsed now (lastI2CCheckMillis s) < I2C_CHECK_INTERVAL_MS ->
  handleI2CCommunication now resp s = (s, []).
Proof.
  intros H. unfold handleI2CCommunication. rewrite Z.geb_leb.
  apply Z.leb_gt in H. rewrite H. reflexivity.
Qed.

(** One more tick adds 100 to the wrapped difference, modulo 2^32. *)
Lemma elapsed_next_tick (t0 last : Z) (n : nat) :
  elapsed (tick_clock t0 (S n)) last
  = (elapsed (tick_clock t0 n) last + 100) mod ULONG_MOD.
Proof.
  unfold elapsed, tick_clock.
  rewrite Zplus_mod_idemp_l, Zminus_mod_idemp_l.
  replace ((t0 + 100 * Z.of_nat n) mod ULONG_MOD - last + 100)
    with ((t0 + 100 * Z.of_nat n) mod ULONG_MOD + (100 - last)) by lia.
  rewrite Zplus_mod_idemp_l.
  f_equal. lia.
Qed.

Lemma elapsed_since_previous_tick (t0 : Z) (n : nat) :
  elapsed (tick_clock t0 (S n)) (tick_clock t0 n) = 100.
Proof.
  unfold elapsed, tick_clock.
  rewrite Zminus_mod_idemp_l, Zminus_mod_idemp_r.
  replace (t0 + 100 * Z.of_nat (S n) - (t0 + 100 * Z.of_nat n)) with 100
    by lia.
  reflexivity.
Qed.

(** When tick [n] begins, the wrapped time since the last poll is 0 at
    tick 0 and otherwise 100, 200, ..., 500 in turn. *)
Lemma elapsed_at_tick (resp : nat -> list Z) (s0 : State) (n : nat) :
  elapsed (tick_clock (lastI2CCheckMillis s0) n)
          (lastI2CCheckMillis (after_ticks (lastI2CCheckMillis s0) resp s0 n))
  = if (n =? 0)%nat then 0
    else 100 * ((Z.of_nat n - 1) mod 5 + 1).
Proof.
  induction n as [|n IH].
  - simpl. unfold elapsed, tick_clock.
    rewrite Zminus_mod_idemp_l.
    replace (lastI2CCheckMillis s0 + 100 * Z.of_nat 0 - lastI2CCheckMillis s0)
      with 0 by lia.
    reflexivity.
  - simpl after_ticks. rewrite poll_timestamp.
    set (t0 := lastI2CCheckMillis s0) in *.
    set (last := lastI2CCheckMillis (after_ticks t0 resp s0 n)) in *.
    replace ((S n =? 0)%nat) with false by reflexivity.
    pose proof (Z.mod_pos_bound (Z.of_nat n - 1) 5 ltac:(lia)) as Hr.
    pose proof (Z.mod_pos_bound (Z.of_nat (S n) - 1) 5 ltac:(lia)) as Hr'.
    unfold I2C_CHECK_INTERVAL_MS.
    destruct (500 <=? elapsed (tick_clock t0 n) last) eqn:Hdue.
    + rewrite elapsed_since_previous_tick.
      apply Z.leb_le in Hdue. rewrite IH in Hdue.
      destruct (n =? 0)%nat eqn:Hn; [lia|].
      apply Nat.eqb_neq in Hn.
      assert (Hm : (Z.of_nat n - 1) mod 5 = 4) by lia.
      assert (Hm' : (Z.of_nat (S n) - 1) mod 5 = 0).
      { replace (Z.of_nat (S n) - 1) with ((Z.of_nat n - 1) + 1) by lia.
        rewrite <- Zplus_mod_idemp_l, Hm. reflexivity. }
      rewrite Hm'. reflexivity.
    + rewrite elapsed_next_tick, IH.
      apply Z.leb_gt in Hdue. rewrite IH in Hdue.
      destruct (n =? 0)%nat eqn:Hn.
      * apply Nat.eqb_eq in Hn. subst n. reflexivity.
      * apply Nat.eqb_neq in Hn.
        assert (Hm' : (Z.of_nat (S n) - 1) mod 5
                      = (Z.of_nat n - 1) mod 5 + 1).
        { replace (Z.of_nat (S n) - 1) with ((Z.of_nat n - 1) + 1) by lia.
          rewrite <- Zplus_mod_idemp_l. apply Z.mod_small. lia. }
        rewrite Hm', Z.mod_small by (unfold ULONG_MOD; lia). lia.
Qed.

Lemma polls_at_spec (resp : nat -> list Z) (s0 : State) (n : nat) :
  polls_at (lastI2CCheckMillis s0) resp s0 n
  = negb (n =? 0)%nat && (n mod 5 =? 0)%nat.
Proof.
  unfold polls_at. rewrite poll_requests_iff_due, elapsed_at_tick.
  unfold I2C_CHECK_INTERVAL_MS.
  destruct (n =? 0)%nat eqn:Hn; [reflexivity|].
  apply Nat.eqb_neq in Hn. simpl negb. cbv iota. rewrite andb_true_l.
  pose proof (Z.mod_pos_bound (Z.of_nat n - 1) 5 ltac:(lia)) as Hr.
  pose proof (Nat.mod_upper_bound n 5 ltac:(lia)) as Hu.
  pose proof (Nat.div_mod_eq n 5) as Hd.
  pose proof (Z.div_mod (Z.of_nat n - 1) 5 ltac:(lia)) as Hz.
  destruct (n mod 5 =? 0)%nat eqn:Hm.
  - apply Nat.eqb_eq in Hm. apply Z.leb_le. lia.
  - apply Nat.eqb_neq in Hm. apply Z.leb_gt. lia.
Qed.

(** C7.  Each interval-gated task runs exactly when the difference
    [now - lastRun], taken modulo 2^32, is at least its interval, and then
    stores [now] as its last run; otherwise it changes nothing.  This is
    shown for the gated tasks of the coordinator (the reconnect check,
    seen by its query of the Wi-Fi status; the bus poll, seen by its bus
    request; the indicator animation, which is a task only while the
    indicator is blinking and is seen by the phase it flips) and for the
    two sampling tasks of the peripheral.  With
    the bus poll's interval of 500 and a clock that advances by 100 per
    tick, whatever the clock value at which the last poll was made, the
    poll runs at ticks 5, 10, 15, ... and at no other tick; in particular
    from the initial state it runs at clock values 500, 1000 and 1500 and
    at none between, and when the last poll was 250 before the clock
    wraps it runs at tick 5, where the clock reads 250. *)
Theorem C7_interval_gated_tasks :
  (forall (now : Z) (connected : bool) (s : State),
     let r := handleWiFiReconnect now connected s in
     if WIFI_RECONNECT_INTERVAL_MS <=? elapsed now (lastWifiCheckMillis s)
     then existsb is_wifi_status (snd r) = true /\
          lastWifiCheckMillis (fst r) = now
     else r = (s, [])) /\
  (forall (now : Z) (resp : list Z) (s : State),
     let r := handleI2CCommunication now resp s in
     if I2C_CHECK_INTERVAL_MS <=? elapsed now (lastI2CCheckMillis s)
     then existsb is_request (snd r) = true /\
          lastI2CCheckMillis (fst r) = now
     else r = (s, [])) /\
  (forall (now : Z) (s : State),
     let r := handleBlink now s in
     if isBlinking s then
       if blinkInterval s <=? elapsed now (previousBlinkMillis s)
       then blinkLedState (fst r) = (if blinkLedState s =? 0 then 1 else 0) /\
            previousBlinkMillis (fst r) = now
       else r = (s, [])
     else r = (s, [])) /\
  (forall (now : Z) (card : option UNO.Uid) (s : UNO.State),
     if UNO.RFID_CHECK_INTERVAL_MS <=? elapsed now (UNO.lastRfidCheckMillis s)
     then UNO.lastRfidCheckMillis (UNO.handleRFID now card s) = now
     else UNO.handleRFID now card s = s) /\
  (forall (now : Z) (dht : UNO.DhtRead) (light_i : Z) (s : UNO.State),
     if UNO.ENV_CHECK_INTERVAL_MS <=? elapsed now (UNO.lastENVCheckMillis s)
     then UNO.lastENVCheckMillis (UNO.handleENVSensor now dht light_i s) = now
     else UNO.handleENVSensor now dht light_i s = s) /\
  (forall (resp : nat -> list Z) (s0 : State) (n : nat),
     polls_at (lastI2CCheckMillis s0) resp s0 n
     = negb (n =? 0)%nat && (n mod 5 =? 0)%nat) /\
  map (fun n => (tick_clock 0 n, polls_at 0 (fun _ => idle_frame) init n))
      (seq 0 16)
  = [(0, false); (100, false); (200, false); (300, false); (400, false);
     (500, true); (600, false); (700, false); (800, false); (900, false);
     (1000, true); (1100, false); (1200, false); (1300, false);
     (1400, false); (1500, true)] /\
  map (fun n => (tick_clock (ULONG_MOD - 250) n,
                 polls_at (ULONG_MOD - 250) (fun _ => idle_frame)
                          polled_before_wrap n))
      (seq 0 11)
  = [(4294967046, false); (4294967146, false); (4294967246, false);
     (50, false); (150, false); (250, true); (350, false); (450, false);
     (550, false); (650, false); (750, true)].
Proof.
  split.
  { intros now connected s. unfold handleWiFiReconnect.
    rewrite Z.geb_leb.
    destruct (WIFI_RECONNECT_INTERVAL_MS <=? _); [split|]; reflexivity. }
  split.
  { intros now resp s. simpl.
    rewrite poll_requests_iff_due, poll_timestamp.
    destruct (I2C_CHECK_INTERVAL_MS <=? _) eqn:E; [split; reflexivity|].
    apply poll_skipped. apply Z.leb_gt. exact E. }
  split.
  { intros now s. unfold handleBlink. rewrite Z.geb_leb.
    destruct (isBlinking s); [|reflexivity]. simpl negb. cbv iota.
    destruct (blinkInterval s <=? _); [split|]; reflexivity. }
  split.
  { intros now card s. unfold UNO.handleRFID.
    rewrite Z.ltb_antisym.
    destruct (UNO.RFID_CHECK_INTERVAL_MS <=? _); [|reflexivity]. simpl.
    destruct (UNO.newCardDataAvailable s); [reflexivity|].
    destruct card as [uid|]; [|reflexivity].
    destruct (0 <? UNO.size uid); reflexivity. }
  split.
  { intros now dht light_i s. unfold UNO.handleENVSensor.
    rewrite Z.ltb_antisym.
    destruct (UNO.ENV_CHECK_INTERVAL_MS <=? _); [|reflexivity]. simpl.
    destruct (UNO.newENVDataAvailable s); [reflexivity|].
    destruct dht; reflexivity. }
  split; [exact polls_at_spec|].
  split; vm_compute; reflexivity.
Qed.

End IntervalGate.

Section Temperature.

(** The sixteen bits that cross the bus: the coordinator's
    [(packetBuffer[1] << 8) | packetBuffer[2]], applied to the two bytes
    the peripheral stores for [x], is [x] modulo 2^16. *)
Lemma lor_shiftl_8 (hi lo : Z) :
  0 <= hi -> 0 <= lo < 256 -> Z.lor (Z.shiftl hi 8) lo = hi * 256 + lo.
Proof.
  intros Hhi Hlo.
  assert (Hdisj : Z.land (Z.shiftl hi 8) lo = 0).
  { apply Z.bits_inj'. intros n Hn.
    rewrite Z.land_spec, Z.bits_0.
    destruct (Z.lt_ge_cases n 8) as [Hlt|Hge].
    - rewrite Z.shiftl_spec_low by assumption. reflexivity.
    - rewrite (Z.bits_above_log2 lo n), andb_false_r; [reflexivity|lia|].
      destruct (Z.eq_dec lo 0) as [->|Hnz]; [simpl; lia|].
      apply Z.log2_lt_pow2; [lia|].
      apply Z.lt_le_trans with (2 ^ 8); [simpl; lia|].
      apply Z.pow_le_mono_r; lia. }
  rewrite <- Z.lxor_lor by exact Hdisj.
  rewrite <- Z.add_nocarry_lxor by exact Hdisj.
  rewrite Z.shiftl_mul_pow2 by lia. reflexivity.
Qed.

Lemma wire_word (x : Z) :
  Z.lor (Z.shiftl (to_byte (to_byte (Z.shiftr x 8))) 8)
        (to_byte (to_byte (Z.land x 255)))
  = x mod 65536.
Proof.
  unfold to_byte.
  rewrite Z.shiftr_div_pow2 by lia.
  change 255 with (Z.ones 8). rewrite Z.land_ones by lia.
  change (2 ^ 8) with 256.
  rewrite !Z.mod_mod by lia.
  pose proof (Z.mod_pos_bound (x / 256) 256 ltac:(lia)) as Hhi.
  pose proof (Z.mod_pos_bound x 256 ltac:(lia)) as Hlo.
  rewrite lor_shiftl_8 by lia.
  apply Z.mod_unique with (q := x / 256 / 256); [left; lia|].
  pose proof (Z.div_mod x 256 ltac:(lia)).
  pose proof (Z.div_mod (x / 256) 256 ltac:(lia)).
  lia.
Qed.

Lemma to_int16_mod (x : Z) : to_int16 x mod 65536 = x mod 65536.
Proof.
  unfold to_int16.
  rewrite Zminus_mod_idemp_l. f_equal. lia.
Qed.

(** The frame the peripheral answers with after packing a sample, when
    nothing was pending and the sample was due. *)
Lemma packed_env_frame (now t h light_i : Z) (u : UNO.State) :
  length (UNO.payload u) = UNO.I2C_PACKET_SIZE ->
  UNO.newCardDataAvailable u = false ->
  UNO.newENVDataAvailable u = false ->
  UNO.ENV_CHECK_INTERVAL_MS <= elapsed now (UNO.lastENVCheckMillis u) ->
  fst (UNO.requestEvent (UNO.handleENVSensor now (UNO.DhtOk t h) light_i u))
  = [UNO.FLAG_ENV_NEW;
     to_byte (Z.shiftr (to_int16 t) 8);
     to_byte (Z.land (to_int16 t) 255);
     to_byte h;
     to_byte (Z.shiftr (to_int16 light_i) 8);
     to_byte (Z.land (to_int16 light_i) 255);
     0; 0; 0; 0].
Proof.
  intros Hlen Hc He Hdue.
  unfold UNO.handleENVSensor. rewrite Z.ltb_antisym.
  apply Z.leb_le in Hdue. rewrite Hdue. cbn [negb UNO.newENVDataAvailable].
  rewrite He. unfold UNO.requestEvent.
  cbn [UNO.newCardDataAvailable UNO.newENVDataAvailable UNO.payload fst].
  rewrite Hc.
  destruct (UNO.payload u) as [|a0 [|a1 [|a2 [|a3 [|a4 [|a5 [|a6 [|a7 [|a8
             [|a9 [|a10 p]]]]]]]]]]]; try discriminate Hlen.
  reflexivity.
Qed.

(** What the coordinator stores from an environment frame. *)
Lemma decoded_env_frame (now b1 b2 b3 b4 b5 : Z) (m : MCU.State) :
  MCU.I2C_CHECK_INTERVAL_MS <= elapsed now (MCU.lastI2CCheckMillis m) ->
  let m' := fst (MCU.handleI2CCommunication now
                   [UNO.FLAG_ENV_NEW; b1; b2; b3; b4; b5; 0; 0; 0; 0] m) in
  MCU.currentTemperature m'
  = Qmake (Z.lor (Z.shiftl (to_byte b1) 8) (to_byte b2)) 10 /\
  MCU.currentHumidity m' = inject_Z (to_byte b3) /\
  MCU.lightLevel m' = Z.lor (Z.shiftl (to_byte b4) 8) (to_byte b5).
Proof.
  intros Hdue. unfold MCU.handleI2CCommunication.
  rewrite Z.geb_leb. apply Z.leb_le in Hdue. rewrite Hdue.
  repeat split.
Qed.

(** Encode on the peripheral, decode on the coordinator: the temperature
    stored is the raw value modulo 2^16, over ten. *)
Lemma temperature_over_the_bus (now now' t h light_i : Z)
    (u : UNO.State) (m : MCU.State) :
  length (UNO.payload u) = UNO.I2C_PACKET_SIZE ->
  UNO.newCardDataAvailable u = false ->
  UNO.newENVDataAvailable u = false ->
  UNO.ENV_CHECK_INTERVAL_MS <= elapsed now (UNO.lastENVCheckMillis u) ->
  MCU.I2C_CHECK_INTERVAL_MS <= elapsed now' (MCU.lastI2CCheckMillis m) ->
  MCU.currentTemperature
    (fst (MCU.handleI2CCommunication now'
            (fst (UNO.requestEvent
                    (UNO.handleENVSensor now (UNO.DhtOk t h) light_i u)))
            m))
  = Qmake (t mod 65536) 10.
Proof.
  intros Hlen Hc He Hdue Hdue'.
  rewrite packed_env_frame by assumption.
  destruct (decoded_env_frame now'
              (to_byte (Z.shiftr (to_int16 t) 8))
              (to_byte (Z.land (to_int16 t) 255))
              (to_byte h)
              (to_byte (Z.shiftr (to_int16 light_i) 8))
              (to_byte (Z.land (to_int16 light_i) 255)) m Hdue') as [-> _].
  rewrite wire_word, to_int16_mod. reflexivity.
Qed.

(** A raw temperature that is not negative arrives as it was sent. *)
Lemma temperature_round_trip_nonneg (now now' t h light_i : Z)
    (u : UNO.State) (m : MCU.State) :
  0 <= t < 32768 ->
  length (UNO.payload u) = UNO.I2C_PACKET_SIZE ->
  UNO.newCardDataAvailable u = false ->
  UNO.newENVDataAvailable u = false ->
  UNO.ENV_CHECK_INTERVAL_MS <= elapsed now (UNO.lastENVCheckMillis u) ->
  MCU.I2C_CHECK_INTERVAL_MS <= elapsed now' (MCU.lastI2CCheckMillis m) ->
  MCU.currentTemperature
    (fst (MCU.handleI2CCommunication now'
            (fst (UNO.requestEvent
                    (UNO.handleENVSensor now (UNO.DhtOk t h) light_i u)))
            m))
  = Qmake t 10.
Proof.
  intros Ht Hlen Hc He Hdue Hdue'.
  rewrite temperature_over_the_bus by assumption.
  rewrite Z.mod_small by lia. reflexivity.
Qed.

(** A negative raw temperature arrives 65536 too large. *)
Lemma temperature_round_trip_negative (now now' t h light_i : Z)
    (u : UNO.State) (m : MCU.State) :
  -32768 <= t < 0 ->
  length (UNO.payload u) = UNO.I2C_PACKET_SIZE ->
  UNO.newCardDataAvailable u = false ->
  UNO.newENVDataAvailable u = false ->
  UNO.ENV_CHECK_INTERVAL_MS <= elapsed now (UNO.lastENVCheckMillis u) ->
  MCU.I2C_CHECK_INTERVAL_MS <= elapsed now' (MCU.lastI2CCheckMillis m) ->
  MCU.currentTemperature
    (fst (MCU.handleI2CCommunication now'
            (fst (UNO.requestEvent
                    (UNO.handleENVSensor now (UNO.DhtOk t h) light_i u)))
            m))
  = Qmake (t + 65536) 10.
Proof.
  intros Ht Hlen Hc He Hdue Hdue'.
  rewrite temperature_over_the_bus by assumption.
  f_equal. symmetry. apply Z.mod_unique with (q := -1); [left; lia | lia].
Qed.

(** C3 (fails on the code).  The claim says that every signed 16-bit raw
    temperature, negative ones included, decodes to a tenth of itself.
    The peripheral sends -50 (that is -5.0 degrees) as the bytes FF CE;
    the coordinator combines the two bytes without sign extension and
    stores 65486/10, not -50/10.  The two values of the specification do
    decode as it says: bytes 00 FA give 250/10, which is 25, and humidity
    byte 32 (hexadecimal) gives 50. *)
Theorem C3_negative_temperature_is_decoded_unsigned :
  frost_frame = [2; 255; 206; 50; 2; 0; 0; 0; 0; 0] /\
  MCU.currentTemperature after_frost_poll = 65486 # 10 /\
  ~ (MCU.currentTemperature after_frost_poll == (-50) # 10) /\
  MCU.currentTemperature
    (fst (MCU.handleI2CCommunication 500 env_frame MCU.init)) == 25 # 1 /\
  MCU.currentHumidity
    (fst (MCU.handleI2CCommunication 500 env_frame MCU.init)) = 50 # 1.
Proof.
  split; [reflexivity|]. split; [reflexivity|].
  split; [vm_compute; discriminate|].
  split; reflexivity.
Qed.

End Temperature.

(** * Further properties of the peripheral *)

Section PeripheralFrames.
Import UNO.

Lemma to_byte_range (x : Z) : 0 <= to_byte x < 256.
Proof. unfold to_byte. apply Z.mod_pos_bound. lia. Qed.

Lemma to_byte_small (x : Z) : 0 <= x < 256 -> to_byte x = x.
Proof. intros H. unfold to_byte. apply Z.mod_small. exact H. Qed.

Lemma all_bytes_insert (p : list Z) (i : nat) (x : Z) :
  0 <= x < 256 -> all_bytes p -> all_bytes (<[i := x]> p).
Proof. intros Hx Hp. apply Forall_insert; assumption. Qed.

Lemma copy_uid_bytes (uid : Uid) (p : list Z) :
  all_bytes p -> all_bytes (copy_uid uid p).
Proof.
  unfold copy_uid. generalize (seq 0 (I2C_PACKET_SIZE - 1)).
  intros l. revert p.
  induction l as [|i l IH]; intros p Hp; simpl; [exact Hp|].
  apply IH. destruct (Z.of_nat i <? size uid);
    apply all_bytes_insert; try assumption; [apply byte_at_range | lia].
Qed.

Lemma all_bytes_step (s : State) (e : Event) :
  all_bytes (payload s) -> all_bytes (payload (step s e)).
Proof.
  intros Hp. destruct e as [now card|now dht light| | |rx]; simpl.
  - unfold handleRFID.
    destruct (elapsed now (lastRfidCheckMillis s) <? RFID_CHECK_INTERVAL_MS);
      [exact Hp|]. simpl.
    destruct (newCardDataAvailable s); [exact Hp|].
    destruct card as [uid|]; [|exact Hp].
    destruct (0 <? size uid); [|exact Hp]. simpl.
    apply copy_uid_bytes, all_bytes_insert; [unfold FLAG_RFID_NEW; lia|exact Hp].
  - unfold handleENVSensor.
    destruct (elapsed now (lastENVCheckMillis s) <? ENV_CHECK_INTERVAL_MS);
      [exact Hp|]. simpl.
    destruct (newENVDataAvailable s); [exact Hp|].
    destruct dht as [|t h]; [exact Hp|]. simpl.
    unfold zero_tail. simpl.
    repeat (apply all_bytes_insert;
            [first [apply to_byte_range | unfold FLAG_ENV_NEW; lia]|]).
    exact Hp.
  - unfold handleCommands. destruct (negb (IsCMD s)); exact Hp.
  - unfold requestEvent.
    destruct (newCardDataAvailable s); [exact Hp|].
    destruct (newENVDataAvailable s); exact Hp.
  - unfold receiveEvent. destruct rx; exact Hp.
Qed.

Lemma reachable_all_bytes (s : State) : reachable s -> all_bytes (payload s).
Proof.
  intros [es ->]. unfold run.
  induction es as [|e es IH] using rev_ind; simpl.
  - repeat constructor; lia.
  - rewrite foldl_snoc. apply all_bytes_step, IH.
Qed.

(** X1.  In every state the peripheral can reach, the answer to a poll is
    a well-formed frame: exactly ten bytes, each between 0 and 255, with a
    kind tag that is Idle (0), card (1) or environment (2). *)
Theorem X1_poll_response_is_well_formed (s : State) :
  reachable s ->
  let frame := fst (requestEvent s) in
  length frame = 10%nat /\
  all_bytes frame /\
  (nth 0 frame 0 = FLAG_IDLE \/ nth 0 frame 0 = FLAG_RFID_NEW \/
   nth 0 frame 0 = FLAG_ENV_NEW).
Proof.
  intros Hr. destruct (reachable_queue_inv s Hr) as [Hlen Htag].
  pose proof (reachable_all_bytes s Hr) as Hb.
  assert (Htake : take I2C_PACKET_SIZE (payload s) = payload s)
    by (apply take_ge; rewrite Hlen; reflexivity).
  unfold requestEvent.
  destruct (newCardDataAvailable s) eqn:Hc; simpl.
  - rewrite Htake. repeat split; try assumption.
    right. apply Htag. left. reflexivity.
  - destruct (newENVDataAvailable s) eqn:He; simpl.
    + rewrite Htake. repeat split; try assumption.
      right. apply Htag. right. reflexivity.
    + repeat split; [|left; reflexivity].
      repeat constructor; unfold FLAG_IDLE; lia.
Qed.

(** A card has been sampled and an environment reading packed on top. *)
Lemma X1_witness :
  let frame := fst (requestEvent card_then_env) in
  length frame = 10%nat /\
  all_bytes frame /\
  (nth 0 frame 0 = FLAG_IDLE \/ nth 0 frame 0 = FLAG_RFID_NEW \/
   nth 0 frame 0 = FLAG_ENV_NEW).
Proof.
  apply (X1_poll_response_is_well_formed card_then_env).
  exists [EvRFID 200 (Some card_DEADBEEF);
          EvENV 2500 (DhtOk 250 50) 512]. reflexivity.
Defined.

(** X2.  Polling drains the queue: from any state, after two polls with
    no sampling in between nothing is pending, and every further poll is
    answered with the all-zero Idle frame and changes nothing. *)
Theorem X2_two_polls_drain_the_queue (s : State) :
  let s2 := snd (requestEvent (snd (requestEvent s))) in
  newCardDataAvailable s2 = false /\
  newENVDataAvailable s2 = false /\
  requestEvent s2 = (idle_frame, s2).
Proof.
  unfold requestEvent.
  destruct (newCardDataAvailable s) eqn:Hc;
    destruct (newENVDataAvailable s) eqn:He; simpl;
    rewrite ?Hc, ?He; simpl; rewrite ?Hc, ?He; simpl;
    rewrite ?Hc, ?He; repeat split.
Qed.

End PeripheralFrames.

Section CardOverTheBus.
Import UNO.

Lemma insert_either (p : list Z) (i : nat) (c : bool) (a b : Z) :
  (if c then <[i := a]> p else <[i := b]> p) = <[i := if c then a else b]> p.
Proof. destruct c; reflexivity. Qed.

(** The frame the peripheral answers with after sampling a card, when no
    card was pending and the sample was due: the card tag, then the nine
    payload bytes filled from the serial and padded with zeros. *)
Lemma sampled_card_frame (now : Z) (uid : Uid) (u : State) :
  length (payload u) = I2C_PACKET_SIZE ->
  newCardDataAvailable u = false ->
  RFID_CHECK_INTERVAL_MS <= elapsed now (lastRfidCheckMillis u) ->
  0 < size uid ->
  fst (requestEvent (handleRFID now (Some uid) u))
  = FLAG_RFID_NEW :: map (uid_frame_byte uid) (seq 0 9).
Proof.
  intros Hlen Hc Hdue Hsize.
  unfold handleRFID. rewrite Z.ltb_antisym.
  apply Z.leb_le in Hdue. rewrite Hdue.
  cbn [negb newCardDataAvailable]. rewrite Hc.
  apply Z.ltb_lt in Hsize. rewrite Hsize.
  unfold requestEvent. cbn [newCardDataAvailable payload fst].
  destruct (payload u) as [|a0 [|a1 [|a2 [|a3 [|a4 [|a5 [|a6 [|a7 [|a8
             [|a9 [|a10 p]]]]]]]]]]]; try discriminate Hlen.
  unfold copy_uid. cbn [seq I2C_PACKET_SIZE Nat.sub foldl].
  rewrite !insert_either. reflexivity.
Qed.

Lemma uid_frame_byte_range (uid : Uid) (i : nat) :
  0 <= uid_frame_byte uid i < 256.
Proof.
  unfold uid_frame_byte.
  destruct (Z.of_nat i <? size uid); [apply byte_at_range | lia].
Qed.

(** X3.  A card sampled by the peripheral and fetched by the next due
    poll is shown by the coordinator as the hexadecimal rendering of the
    first four bytes of its serial, with zero bytes standing in where the
    serial is shorter; bytes of the serial beyond the fourth travel in
    the frame but do not reach the identifier. *)
Theorem X3_card_serial_reaches_the_snapshot (now now' : Z) (uid : Uid)
    (u : State) (m : MCU.State) :
  length (payload u) = I2C_PACKET_SIZE ->
  newCardDataAvailable u = false ->
  RFID_CHECK_INTERVAL_MS <= elapsed now (lastRfidCheckMillis u) ->
  0 < size uid ->
  MCU.I2C_CHECK_INTERVAL_MS <= elapsed now' (MCU.lastI2CCheckMillis m) ->
  let frame := fst (requestEvent (handleRFID now (Some uid) u)) in
  frame = FLAG_RFID_NEW :: map (uid_frame_byte uid) (seq 0 9) /\
  MCU.lastRfidFromUno (fst (MCU.handleI2CCommunication now' frame m))
  = spec_card_id (uid_frame_byte uid 0) (uid_frame_byte uid 1)
                 (uid_frame_byte uid 2) (uid_frame_byte uid 3).
Proof.
  intros Hlen Hc Hdue Hsize Hdue'. cbv zeta.
  rewrite sampled_card_frame by assumption.
  split; [reflexivity|].
  unfold MCU.handleI2CCommunication.
  rewrite Z.geb_leb. apply Z.leb_le in Hdue'. rewrite Hdue'.
  cbn [map seq length Z.of_nat Z.eqb Pos.of_succ_nat Pos.succ Pos.eqb].
  change (byte_at (FLAG_RFID_NEW :: ?l) 0) with 1.
  unfold MCU.apply_frame.
  change (byte_at (FLAG_RFID_NEW :: _) 0 =? 0) with false.
  change (byte_at (FLAG_RFID_NEW :: _) 0 =? 1) with true.
  cbv iota. cbn [fst MCU.setLED MCU.lastRfidFromUno].
  rewrite uid_loop_upper.
  unfold byte_at. cbn [nth].
  rewrite !to_byte_small by apply uid_frame_byte_range.
  reflexivity.
Qed.

(** A seven-byte serial 04 A1 B2 C3 D4 E5 F6 read by a freshly started
    peripheral and polled by a freshly started coordinator. *)
Lemma X3_witness :
  MCU.lastRfidFromUno
    (fst (MCU.handleI2CCommunication 500
            (fst (requestEvent
                    (handleRFID 200
                       (Some (mkUid 7 [4; 161; 178; 195; 212; 229; 246]))
                       init)))
            MCU.init))
  = "04A1B2C3"%string.
Proof.
  refine (eq_trans
            (proj2 (X3_card_serial_reaches_the_snapshot 200 500
                      (mkUid 7 [4; 161; 178; 195; 212; 229; 246])
                      init MCU.init _ _ _ _ _)) _).
  - reflexivity.
  - reflexivity.
  - vm_compute. discriminate.
  - simpl. lia.
  - vm_compute. discriminate.
  - reflexivity.
Defined.

End CardOverTheBus.

Section ReadingsOverTheBus.
Import UNO.

(** X4.  A humidity between 0 and 255 and a light level between 0 and
    32767 (the ADC gives 0 to 1023) packed by the peripheral, when nothing
    was pending and the sample was due, and fetched by a due poll are
    stored by the coordinator unchanged, whatever the temperature was. *)
Theorem X4_humidity_and_light_round_trip (now now' t h light_i : Z)
    (u : State) (m : MCU.State) :
  0 <= h < 256 ->
  0 <= light_i < 32768 ->
  length (payload u) = I2C_PACKET_SIZE ->
  newCardDataAvailable u = false ->
  newENVDataAvailable u = false ->
  ENV_CHECK_INTERVAL_MS <= elapsed now (lastENVCheckMillis u) ->
  MCU.I2C_CHECK_INTERVAL_MS <= elapsed now' (MCU.lastI2CCheckMillis m) ->
  let m' := fst (MCU.handleI2CCommunication now'
                   (fst (requestEvent
                           (handleENVSensor now (DhtOk t h) light_i u)))
                   m) in
  MCU.currentHumidity m' = inject_Z h /\
  MCU.lightLevel m' = light_i.
Proof.
  intros Hh Hl Hlen Hc He Hdue Hdue'. cbv zeta.
  rewrite packed_env_frame by assumption.
  destruct (decoded_env_frame now'
              (to_byte (Z.shiftr (to_int16 t) 8))
              (to_byte (Z.land (to_int16 t) 255))
              (to_byte h)
              (to_byte (Z.shiftr (to_int16 light_i) 8))
              (to_byte (Z.land (to_int16 light_i) 255)) m Hdue')
    as (_ & -> & ->).
  rewrite wire_word, to_int16_mod.
  rewrite (Z.mod_small light_i) by lia.
  rewrite !to_byte_small by (try apply to_byte_range; lia).
  split; reflexivity.
Qed.

(** 61 percent and light 1023 at -3.0 degrees. *)
Lemma X4_witness :
  let m' := fst (MCU.handleI2CCommunication 500
                   (fst (requestEvent
                           (handleENVSensor 2500 (DhtOk (-30) 61) 1023 init)))
                   MCU.init) in
  MCU.currentHumidity m' = inject_Z 61 /\
  MCU.lightLevel m' = 1023.
Proof.
  apply (X4_humidity_and_light_round_trip 2500 500 (-30) 61 1023
           init MCU.init).
  - lia.
  - lia.
  - reflexivity.
  - reflexivity.
  - reflexivity.
  - vm_compute. discriminate.
  - vm_compute. discriminate.
Defined.

Lemma handleRFID_keeps_command (now : Z) (card : option Uid) (s : State) :
  fst (handleCommands (handleRFID now card s)) = fst (handleCommands s) /\
  IsCMD (handleRFID now card s) = IsCMD s.
Proof.
  unfold handleRFID, handleCommands.
  destruct (elapsed now (lastRfidCheckMillis s) <? RFID_CHECK_INTERVAL_MS);
    [split; reflexivity|]. simpl.
  destruct (newCardDataAvailable s); simpl;
    [destruct (IsCMD s); split; reflexivity|].
  destruct card as [uid|]; simpl; [|destruct (IsCMD s); split; reflexivity].
  destruct (0 <? size uid); simpl; destruct (IsCMD s); split; reflexivity.
Qed.

Lemma handleENVSensor_keeps_command (now : Z) (dht : DhtRead) (light_i : Z)
    (s : State) :
  fst (handleCommands (handleENVSensor now dht light_i s))
  = fst (handleCommands s) /\
  IsCMD (handleENVSensor now dht light_i s) = IsCMD s.
Proof.
  unfold handleENVSensor, handleCommands.
  destruct (elapsed now (lastENVCheckMillis s) <? ENV_CHECK_INTERVAL_MS);
    [split; reflexivity|]. simpl.
  destruct (newENVDataAvailable s); simpl;
    [destruct (IsCMD s); split; reflexivity|].
  destruct dht; simpl; destruct (IsCMD s); split; reflexivity.
Qed.

(** X5.  The command channel and the event queue do not disturb each
    other: receiving a command or dispatching one changes neither the
    answer to the next poll nor the event flags, and sampling or polling
    changes neither the pending command nor what its dispatch does. *)
Theorem X5_commands_and_events_are_independent (s : State) :
  (forall rx : list Z,
     fst (requestEvent (receiveEvent rx s)) = fst (requestEvent s) /\
     newCardDataAvailable (receiveEvent rx s) = newCardDataAvailable s /\
     newENVDataAvailable (receiveEvent rx s) = newENVDataAvailable s) /\
  (fst (requestEvent (snd (handleCommands s))) = fst (requestEvent s) /\
   newCardDataAvailable (snd (handleCommands s)) = newCardDataAvailable s /\
   newENVDataAvailable (snd (handleCommands s)) = newENVDataAvailable s) /\
  (forall (now : Z) (card : option Uid),
     fst (handleCommands (handleRFID now card s)) = fst (handleCommands s) /\
     IsCMD (handleRFID now card s) = IsCMD s) /\
  (forall (now : Z) (dht : DhtRead) (light_i : Z),
     fst (handleCommands (handleENVSensor now dht light_i s))
     = fst (handleCommands s) /\
     IsCMD (handleENVSensor now dht light_i s) = IsCMD s) /\
  (fst (handleCommands (snd (requestEvent s))) = fst (handleCommands s) /\
   IsCMD (snd (requestEvent s)) = IsCMD s).
Proof.
  split; [|split; [|split; [|split]]].
  - intros rx. destruct rx as [|b rest]; [repeat split|].
    unfold receiveEvent, requestEvent. simpl.
    destruct (newCardDataAvailable s); [repeat split|].
    destruct (newENVDataAvailable s); repeat split.
  - unfold handleCommands. destruct (IsCMD s); [|repeat split].
    unfold requestEvent. simpl.
    destruct (newCardDataAvailable s); [repeat split|].
    destruct (newENVDataAvailable s); repeat split.
  - intros now card. apply handleRFID_keeps_command.
  - intros now dht light_i. apply handleENVSensor_keeps_command.
  - unfold requestEvent, handleCommands.
    destruct (newCardDataAvailable s); simpl;
      [destruct (IsCMD s); split; reflexivity|].
    destruct (newENVDataAvailable s); simpl;
      destruct (IsCMD s); split; reflexivity.
Qed.


(** X7.  A volume command sets the stored parameter to zero, so a
    PlayTrack transaction that carries its tag byte alone and comes after
    a volume command plays track 0, not the track of an earlier
    PlayTrack. *)
Theorem X7_tag_only_play_after_volume_plays_zero (rest : list Z)
    (s : State) :
  fst (handleCommands (receiveEvent [80] (receiveEvent (43 :: rest) s)))
  = [play 0] /\
  fst (handleCommands (receiveEvent [80] (receiveEvent (45 :: rest) s)))
  = [play 0].
Proof. split; reflexivity. Qed.

(** X8.  An environment activation that is due but packs nothing, because
    the DHT read failed or because an environment event is still pending,
    still restarts the interval: no activation samples before 2500 ms
    have passed since it, even if the pending event is fetched by a poll
    in the meantime. *)
Theorem X8_unused_activation_restarts_the_interval (now now' : Z)
    (dht dht' : DhtRead) (light_i light_i' : Z) (s : State) :
  ENV_CHECK_INTERVAL_MS <= elapsed now (lastENVCheckMillis s) ->
  newENVDataAvailable s = true \/ dht = DhtNaN ->
  elapsed now' now < ENV_CHECK_INTERVAL_MS ->
  let s1 := handleENVSensor now dht light_i s in
  payload s1 = payload s /\
  newENVDataAvailable s1 = newENVDataAvailable s /\
  handleENVSensor now' dht' light_i' s1 = s1 /\
  handleENVSensor now' dht' light_i' (snd (requestEvent s1))
  = snd (requestEvent s1).
Proof.
  intros Hdue Hwhy Hsoon. cbv zeta.
  assert (Hs1 : handleENVSensor now dht light_i s
                = mkState (newCardDataAvailable s) (newENVDataAvailable s)
                          (IsCMD s) (command_to_run s) (command_param s)
                          (payload s) (lastRfidCheckMillis s) now).
  { unfold handleENVSensor. rewrite Z.ltb_antisym.
    apply Z.leb_le in Hdue. rewrite Hdue. simpl.
    destruct Hwhy as [-> | ->]; [reflexivity|].
    destruct (newENVDataAvailable s); reflexivity. }
  rewrite Hs1. apply Z.ltb_lt in Hsoon.
  repeat split.
  - unfold handleENVSensor. simpl. rewrite Hsoon. reflexivity.
  - unfold requestEvent. simpl.
    destruct (newCardDataAvailable s);
      [|destruct (newENVDataAvailable s)];
      unfold handleENVSensor; simpl; rewrite Hsoon; reflexivity.
Qed.

(** The DHT read fails at 2500 ms; the next activation, at 4999 ms, with
    a good read, packs nothing. *)
Lemma X8_witness :
  let s1 := handleENVSensor 2500 DhtNaN 512 init in
  handleENVSensor 4999 (DhtOk 250 50) 512 s1 = s1.
Proof.
  refine (proj1 (proj2 (proj2
            (X8_unused_activation_restarts_the_interval
               2500 4999 DhtNaN (DhtOk 250 50) 512 512 init _ _ _)))).
  - vm_compute. discriminate.
  - right. reflexivity.
  - vm_compute. reflexivity.
Defined.

End ReadingsOverTheBus.

(** * Further properties of the coordinator *)

Section CommandPath.
Import MCU.

Lemma transmissions_indicator (l : list Effect) :
  transmissions (map Indicator l) = [].
Proof. induction l as [|e l IH]; [reflexivity|exact IH]. Qed.

Lemma playTrack_online (n : Z) (s : State) :
  isUnoOnline s = true ->
  transmissions (snd (playTrack n s)) = [[80; to_byte n]].
Proof.
  intros Hon. unfold playTrack. rewrite Hon. simpl negb. cbv iota.
  destruct (green_pulse s) as [s1 pulse]. simpl.
  rewrite transmissions_indicator. reflexivity.
Qed.

Lemma chgVol_online (vol : ascii) (s : State) :
  isUnoOnline s = true ->
  transmissions (snd (chgVol vol s))
  = [if (N_of_ascii vol =? 43)%N then [43]
     else if (N_of_ascii vol =? 45)%N then [45] else []].
Proof.
  intros Hon. unfold chgVol. rewrite Hon. simpl negb. cbv iota.
  destruct (green_pulse s) as [s1 pulse]. simpl.
  rewrite transmissions_indicator. reflexivity.
Qed.

(** X9.  While the link is up, [playTrack n] makes one write transaction
    of two bytes, 'P' and [n] modulo 256; once the peripheral has received
    it, whatever command it held before, its next dispatch plays exactly
    that track.  The coordinator always sends the track byte, so the
    peripheral never has to fall back on a stored one. *)
Theorem X9_play_track_reaches_the_player (n : Z) (m : State)
    (u : UNO.State) :
  isUnoOnline m = true ->
  let out := snd (playTrack n m) in
  transmissions out = [[80; n mod 256]] /\
  UNO.IsCMD (deliver out u) = true /\
  UNO.handleCommands (deliver out u)
  = ([UNO.play (n mod 256)],
     UNO.mkState (UNO.newCardDataAvailable u) (UNO.newENVDataAvailable u)
                 false 80 (n mod 256) (UNO.payload u)
                 (UNO.lastRfidCheckMillis u) (UNO.lastENVCheckMillis u)).
Proof.
  intros Hon. cbv zeta. unfold deliver.
  rewrite playTrack_online by exact Hon.
  cbn [foldl]. unfold UNO.receiveEvent, UNO.handleCommands.
  change (to_char 80) with 80. cbn [Z.eqb Pos.eqb].
  unfold to_byte. rewrite Z.mod_mod by lia.
  repeat split.
Qed.

(** Track 300 is asked for while volume-down is pending on the
    peripheral. *)
Lemma X9_witness :
  let m := fst (handleI2CCommunication 500 idle_frame init) in
  let u := UNO.receiveEvent [45] UNO.init in
  fst (UNO.handleCommands (deliver (snd (playTrack 300 m)) u))
  = [UNO.play 44].
Proof.
  cbv zeta.
  pose proof (X9_play_track_reaches_the_player 300
                (fst (handleI2CCommunication 500 idle_frame init))
                (UNO.receiveEvent [45] UNO.init)) as H.
  destruct H as (_ & _ & H); [reflexivity|].
  rewrite H. reflexivity.
Defined.

(** X10.  While the link is up, [chgVol] with '+' makes the peripheral's
    next dispatch raise the volume and with '-' lower it; with any other
    character it still makes a write transaction, an empty one, which
    leaves the peripheral exactly as it was. *)
Theorem X10_volume_commands_reach_the_player (vol : ascii) (m : State)
    (u : UNO.State) :
  isUnoOnline m = true ->
  let out := snd (chgVol vol m) in
  length (transmissions out) = 1%nat /\
  (vol = "+"%char ->
   fst (UNO.handleCommands (deliver out u)) = [UNO.volumeUp]) /\
  (vol = "-"%char ->
   fst (UNO.handleCommands (deliver out u)) = [UNO.volumeDown]) /\
  (vol <> "+"%char -> vol <> "-"%char -> deliver out u = u).
Proof.
  intros Hon. cbv zeta. unfold deliver.
  rewrite chgVol_online by exact Hon.
  split; [reflexivity|]. split; [|split].
  - intros ->. reflexivity.
  - intros ->. reflexivity.
  - intros Hp Hm.
    destruct (N_of_ascii vol =? 43)%N eqn:E1.
    { apply N.eqb_eq in E1. exfalso. apply Hp.
      rewrite <- (ascii_N_embedding vol), E1. reflexivity. }
    destruct (N_of_ascii vol =? 45)%N eqn:E2.
    { apply N.eqb_eq in E2. exfalso. apply Hm.
      rewrite <- (ascii_N_embedding vol), E2. reflexivity. }
    reflexivity.
Qed.

(** The coordinator is online; the peripheral holds PlayTrack 5;
    [chgVol('x')] is called. *)
Lemma X10_witness :
  let m := fst (handleI2CCommunication 500 idle_frame init) in
  let u := UNO.receiveEvent [80; 5] UNO.init in
  deliver (snd (chgVol "x" m)) u = u.
Proof.
  cbv zeta.
  pose proof (X10_volume_commands_reach_the_player "x"
                (fst (handleI2CCommunication 500 idle_frame init))
                (UNO.receiveEvent [80; 5] UNO.init)) as H.
  destruct H as (_ & _ & _ & H); [reflexivity|].
  apply H; discriminate.
Defined.

(** X11.  After a due poll that returned other than ten bytes, a command
    is dropped without a trace: [playTrack] and [chgVol] make no
    transaction, print nothing and change nothing, and the route
    /api/play, given a positive track, still answers 200 with the text
    that the command was sent. *)
Theorem X11_commands_are_dropped_while_offline (now : Z) (resp : list Z)
    (s : State) (n : Z) (vol : ascii) :
  I2C_CHECK_INTERVAL_MS <= elapsed now (lastI2CCheckMillis s) ->
  length resp <> 10%nat ->
  0 < n ->
  let s' := fst (handleI2CCommunication now resp s) in
  playTrack n s' = (s', []) /\
  chgVol vol s' = (s', []) /\
  api_play (Some n) s' = (s', PlaySent n, []) /\
  status_code (snd (fst (api_play (Some n) s'))) = 200.
Proof.
  intros Hdue Hlen Hn. cbv zeta.
  assert (Hoff : isUnoOnline (fst (handleI2CCommunication now resp s))
                 = false).
  { unfold handleI2CCommunication.
    rewrite Z.geb_leb. apply Z.leb_le in Hdue. rewrite Hdue.
    destruct (Z.of_nat (length resp) =? 10) eqn:E;
      [apply Z.eqb_eq in E; lia | reflexivity]. }
  unfold api_play, playTrack, chgVol. rewrite Hoff.
  assert (Hpos : (n >? 0) = true) by (apply Z.gtb_lt; lia).
  rewrite Hpos. repeat split.
Qed.

(** The poll at 500 ms finds no peripheral; track 3 is asked for. *)
Lemma X11_witness :
  let s' := fst (handleI2CCommunication 500 [] init) in
  api_play (Some 3) s' = (s', PlaySent 3, []).
Proof.
  cbv zeta.
  pose proof (X11_commands_are_dropped_while_offline 500 [] init 3 "+")
    as H.
  destruct H as (_ & _ & H & _).
  - vm_compute. discriminate.
  - simpl. lia.
  - lia.
  - exact H.
Defined.

(** X12.  The route /api/play answers 200 exactly when the track
    parameter is present and positive, and otherwise answers 400 and does
    nothing.  A positive track is cut to its low eight bits on its way to
    the bus: with the link up the peripheral plays the track modulo 256,
    so that track 256 is accepted and plays track 0. *)
Theorem X12_api_play_validates_then_truncates (track : option Z)
    (m : State) (u : UNO.State) :
  let r := api_play track m in
  (status_code (snd (fst r)) = 200 <->
   exists id, track = Some id /\ 0 < id) /\
  (status_code (snd (fst r)) = 400 -> r = (m, snd (fst r), [])) /\
  (forall id, track = Some id -> 0 < id -> isUnoOnline m = true ->
     fst (UNO.handleCommands (deliver (snd r) u)) = [UNO.play (id mod 256)]).
Proof.
  cbv zeta. unfold api_play.
  destruct track as [id|].
  - destruct (id >? 0) eqn:Hpos.
    + apply Z.gtb_lt in Hpos.
      destruct (playTrack id m) as [s1 out] eqn:Hp. simpl.
      split; [split; [intros _; exists id; split; [reflexivity|lia]
                     |reflexivity]|].
      split; [discriminate|].
      intros id' [= <-] _ Hon. unfold deliver.
      replace out with (snd (playTrack id m)) by (rewrite Hp; reflexivity).
      rewrite playTrack_online by exact Hon.
      cbn [foldl]. unfold UNO.receiveEvent, UNO.handleCommands.
      change (to_char 80) with 80. cbn [Z.eqb Pos.eqb].
      unfold to_byte. rewrite Z.mod_mod by lia. reflexivity.
    + simpl. rewrite Z.gtb_ltb in Hpos. apply Z.ltb_ge in Hpos.
      split; [split; [discriminate|intros (id' & [= <-] & H); lia]|].
      split; [reflexivity|].
      intros id' [= <-] H. lia.
  - simpl. split; [split; [discriminate|intros (id' & H & _); discriminate]|].
    split; [reflexivity|]. intros id' H. discriminate.
Qed.

(** /api/play?track=256 on an online coordinator. *)
Lemma X12_witness :
  let m := fst (handleI2CCommunication 500 idle_frame init) in
  status_code (snd (fst (api_play (Some 256) m))) = 200 /\
  fst (UNO.handleCommands
         (deliver (snd (api_play (Some 256) m)) UNO.init))
  = [UNO.play 0].
Proof.
  cbv zeta.
  pose proof (X12_api_play_validates_then_truncates (Some 256)
                (fst (handleI2CCommunication 500 idle_frame init))
                UNO.init) as H.
  destruct H as (H1 & _ & H3). split.
  - apply H1. exists 256. split; [reflexivity|lia].
  - apply (H3 256); [reflexivity | lia | reflexivity].
Defined.

End CommandPath.

Section Snapshot.
Import MCU.

(** The state after a due poll that returned ten bytes with a tag other
    than Idle: what [apply_frame] stored, with blinking cancelled by the
    pulse. *)
Lemma poll_nonidle_state (now : Z) (resp : list Z) (s : State) :
  I2C_CHECK_INTERVAL_MS <= elapsed now (lastI2CCheckMillis s) ->
  length resp = 10%nat ->
  byte_at resp 0 <> 0 ->
  let a := fst (apply_frame resp s) in
  fst (handleI2CCommunication now resp s)
  = mkState (lastWifiCheckMillis s) true now (lastRfidFromUno a) false
            (currentTemperature a) (currentHumidity a) (lightLevel a)
            (blinkPin s) (blinkInterval s)
            (previousBlinkMillis s) (blinkLedState s).
Proof.
  intros Hdue Hlen Htag. cbv zeta. unfold handleI2CCommunication.
  rewrite Z.geb_leb. apply Z.leb_le in Hdue. rewrite Hdue.
  rewrite Hlen. simpl Z.eqb. cbv iota.
  apply Z.eqb_neq in Htag. rewrite Htag.
  unfold apply_frame.
  destruct (byte_at resp 0 =? 1); [reflexivity|].
  destruct (byte_at resp 0 =? 2); reflexivity.
Qed.

(** X13.  Every frame other than Idle that a due poll receives cancels
    blinking, because of the pulse it triggers: afterwards the animation
    task does nothing at any clock value, until blinking is started
    again. *)
Theorem X13_received_event_cancels_blinking (now : Z) (resp : list Z)
    (s : State) :
  I2C_CHECK_INTERVAL_MS <= elapsed now (lastI2CCheckMillis s) ->
  length resp = 10%nat ->
  byte_at resp 0 <> 0 ->
  let s' := fst (handleI2CCommunication now resp s) in
  isBlinking s' = false /\
  (forall now' : Z, handleBlink now' s' = (s', [])).
Proof.
  intros Hdue Hlen Htag. cbv zeta.
  rewrite poll_nonidle_state by assumption.
  split; reflexivity.
Qed.

(** Blue blinking is started through the route, then an environment
    frame arrives. *)
Lemma X13_witness :
  let s' := fst (handleI2CCommunication 500 env_frame
                   (startBlinkingLED "B" 250 init)) in
  isBlinking s' = false /\ handleBlink 1000 s' = (s', []).
Proof.
  cbv zeta.
  pose proof (X13_received_event_cancels_blinking 500 env_frame
                (startBlinkingLED "B" 250 init)) as H.
  destruct H as [H1 H2].
  - vm_compute. discriminate.
  - reflexivity.
  - vm_compute. discriminate.
  - split; [exact H1 | apply H2].
Defined.

(** X14.  A due poll that receives ten bytes whose tag is neither card
    nor environment brings the link up and leaves the card identifier,
    temperature, humidity and light as they were; if the tag is Idle it
    also leaves blinking alone and does nothing beyond the request and,
    when the link was down, the line that reports the gain. *)
Theorem X14_idle_and_unknown_frames_keep_the_readings (now : Z)
    (resp : list Z) (s : State) :
  I2C_CHECK_INTERVAL_MS <= elapsed now (lastI2CCheckMillis s) ->
  length resp = 10%nat ->
  byte_at resp 0 <> 1 ->
  byte_at resp 0 <> 2 ->
  let r := handleI2CCommunication now resp s in
  isUnoOnline (fst r) = true /\
  lastRfidFromUno (fst r) = lastRfidFromUno s /\
  currentTemperature (fst r) = currentTemperature s /\
  currentHumidity (fst r) = currentHumidity s /\
  lightLevel (fst r) = lightLevel s /\
  (byte_at resp 0 = 0 ->
   isBlinking (fst r) = isBlinking s /\
   snd r = RequestFrom UNO_I2C_ADDRESS 10 ::
           (if isUnoOnline s then [] else [Println LogOnline])).
Proof.
  intros Hdue Hlen H1 H2. cbv zeta. unfold handleI2CCommunication.
  rewrite Z.geb_leb. apply Z.leb_le in Hdue. rewrite Hdue.
  rewrite Hlen. simpl Z.eqb. cbv iota.
  destruct (byte_at resp 0 =? 0) eqn:H0.
  - simpl. repeat split. destruct (isUnoOnline s); reflexivity.
  - unfold apply_frame.
    apply Z.eqb_neq in H1, H2. rewrite H1, H2. simpl.
    repeat split; apply Z.eqb_neq in H0; intros; contradiction.
Qed.

(** A coordinator that holds a card and readings and is blinking
    receives a frame of the reserved kind 7. *)
Lemma X14_witness :
  let s := mkState 0 true 0 "DEADBEEF" true (250 # 10) (50 # 1) 512
                   "G" 250 0 1 in
  let r := handleI2CCommunication 500 [7; 1; 2; 3; 4; 5; 6; 7; 8; 9] s in
  isUnoOnline (fst r) = true /\
  lastRfidFromUno (fst r) = "DEADBEEF"%string /\
  currentTemperature (fst r) = 250 # 10 /\
  currentHumidity (fst r) = 50 # 1 /\
  lightLevel (fst r) = 512.
Proof.
  cbv zeta.
  pose proof (X14_idle_and_unknown_frames_keep_the_readings 500
                [7; 1; 2; 3; 4; 5; 6; 7; 8; 9]
                (mkState 0 true 0 "DEADBEEF" true (250 # 10) (50 # 1) 512
                         "G" 250 0 1)) as H.
  destruct H as (H1 & H2 & H3 & H4 & H5 & _).
  - vm_compute. discriminate.
  - reflexivity.
  - vm_compute. discriminate.
  - vm_compute. discriminate.
  - repeat split; assumption.
Defined.

Lemma spec_card_id_length (b1 b2 b3 b4 : Z) :
  String.length (spec_card_id b1 b2 b3 b4) = 8%nat.
Proof. reflexivity. Qed.

(** The bus poll keeps [snapshot_inv]. *)
Lemma snapshot_inv_poll (now : Z) (resp : list Z) (s : State) :
  snapshot_inv s -> snapshot_inv (fst (handleI2CCommunication now resp s)).
Proof.
  intros [Hoff Hshape]. unfold handleI2CCommunication.
  destruct (elapsed now (lastI2CCheckMillis s) >=? I2C_CHECK_INTERVAL_MS);
    [|split; assumption].
  destruct (Z.of_nat (length resp) =? 10).
  - destruct (byte_at resp 0 =? 0).
    + split; simpl; [discriminate | exact Hshape].
    + unfold apply_frame.
      destruct (byte_at resp 0 =? 1).
      * split; simpl; [discriminate|]. right.
        rewrite uid_loop_upper. apply spec_card_id_length.
      * destruct (byte_at resp 0 =? 2);
          (split; simpl; [discriminate | exact Hshape]).
  - split; simpl; [reflexivity | left; reflexivity].
Qed.

(** Every other function leaves the link flag and the card identifier as
    they are. *)
Lemma step_keeps_link_and_card (s : State) (e : Event) :
  (forall now resp, e <> EvPoll now resp) ->
  isUnoOnline (step s e) = isUnoOnline s /\
  lastRfidFromUno (step s e) = lastRfidFromUno s /\
  currentTemperature (step s e) = currentTemperature s /\
  currentHumidity (step s e) = currentHumidity s /\
  lightLevel (step s e) = lightLevel s.
Proof.
  intros Hnp.
  destruct e as [now resp|now connected|now|pin status|g b|pin ms|n|vol
                |track|]; simpl.
  - exfalso. apply (Hnp now resp). reflexivity.
  - unfold handleWiFiReconnect.
    destruct (elapsed now (lastWifiCheckMillis s) >=? _); repeat split.
  - unfold handleBlink. destruct (negb (isBlinking s)); [repeat split|].
    destruct (elapsed now (previousBlinkMillis s) >=? _); repeat split.
  - repeat split.
  - repeat split.
  - repeat split.
  - unfold playTrack. destruct (negb (isUnoOnline s)); repeat split.
  - unfold chgVol. destruct (negb (isUnoOnline s)); repeat split.
  - unfold api_play. destruct track as [id|]; [|repeat split].
    destruct (id >? 0); [|repeat split].
    unfold playTrack. destruct (negb (isUnoOnline s)); repeat split.
  - repeat split.
Qed.

Lemma snapshot_inv_step (s : State) (e : Event) :
  snapshot_inv s -> snapshot_inv (step s e).
Proof.
  intros Hinv.
  destruct e as [now resp|now connected|now|pin status|g b|pin ms|n|vol
                |track|] eqn:He;
    try (apply snapshot_inv_poll; exact Hinv);
    (rewrite <- He;
     destruct (step_keeps_link_and_card s e) as (Hl & Hc & _);
     [subst e; intros now0 resp0; discriminate|];
     destruct Hinv as [Hoff Hshape]; unfold snapshot_inv;
     rewrite Hl, Hc; split; assumption).
Qed.

(** X15.  In every state the coordinator can reach, whatever sequence of
    polls, tasks, routes and indicator calls led to it, the card
    identifier is the sentinel "N/A" whenever the link is down, and is
    never anything but the sentinel or a string of eight characters. *)
Theorem X15_offline_means_no_card (s : State) :
  reachable s ->
  (isUnoOnline s = false -> lastRfidFromUno s = "N/A"%string) /\
  (lastRfidFromUno s = "N/A"%string \/
   String.length (lastRfidFromUno s) = 8%nat).
Proof.
  intros [es ->]. unfold run.
  induction es as [|e es IH] using rev_ind; simpl.
  - split; [reflexivity | left; reflexivity].
  - rewrite foldl_snoc. apply snapshot_inv_step. exact IH.
Qed.

(** A card is shown, a track is played, the link drops. *)
Lemma X15_witness :
  let s := run [EvPoll 500 card_frame; EvApiPlay (Some 2);
                EvStartBlink "G" 250; EvPoll 1000 [1; 2]] in
  isUnoOnline s = false /\ lastRfidFromUno s = "N/A"%string.
Proof.
  cbv zeta. split; [reflexivity|].
  apply (X15_offline_means_no_card
           (run [EvPoll 500 card_frame; EvApiPlay (Some 2);
                 EvStartBlink "G" 250; EvPoll 1000 [1; 2]])).
  - eexists. reflexivity.
  - reflexivity.
Defined.

(** X16.  The link flag and the readings belong to the bus poll alone:
    no other task, route, command or indicator call changes the link
    flag, the card identifier, the temperature, the humidity or the
    light level; a poll that is not yet due changes nothing; and after a
    due poll the link is up exactly when ten bytes came back. *)
Theorem X16_only_the_poll_writes_the_snapshot (s : State) (e : Event) :
  match e with
  | EvPoll now resp =>
      if I2C_CHECK_INTERVAL_MS <=? elapsed now (lastI2CCheckMillis s)
      then isUnoOnline (step s e) = (Z.of_nat (length resp) =? 10)
      else step s e = s
  | _ =>
      isUnoOnline (step s e) = isUnoOnline s /\
      lastRfidFromUno (step s e) = lastRfidFromUno s /\
      currentTemperature (step s e) = currentTemperature s /\
      currentHumidity (step s e) = currentHumidity s /\
      lightLevel (step s e) = lightLevel s
  end.
Proof.
  destruct e as [now resp|now connected|now|pin status|g b|pin ms|n|vol
                |track|];
    try (apply step_keeps_link_and_card; intros now0 resp0; discriminate).
  simpl. unfold handleI2CCommunication. rewrite Z.geb_leb.
  destruct (I2C_CHECK_INTERVAL_MS <=? _); [|reflexivity].
  destruct (Z.of_nat (length resp) =? 10); [|reflexivity].
  destruct (byte_at resp 0 =? 0); [reflexivity|].
  unfold apply_frame.
  destruct (byte_at resp 0 =? 1); [reflexivity|].
  destruct (byte_at resp 0 =? 2); reflexivity.
Qed.

End Snapshot.

Section Startup.
Import MCU.

Lemma wait_for_uno_online (ticks : list (Z * list Z)) :
  forall (s s' : State) (out : list Effect),
    wait_for_uno ticks s = Some (s', out) -> isUnoOnline s' = true.
Proof.
  induction ticks as [|[now resp] rest IH]; intros s s' out; simpl.
  - destruct (isUnoOnline s) eqn:Hon; [|discriminate].
    intros [= <- _]. exact Hon.
  - destruct (isUnoOnline s) eqn:Hon; [intros [= <- _]; exact Hon|].
    destruct (handleI2CCommunication now resp s) as [s1 out1].
    destruct (wait_for_uno rest s1) as [[s2 out2]|] eqn:Hw; [|discriminate].
    intros [= <- _]. apply (IH s1 s2 out2). exact Hw.
Qed.

Lemma poll_short_stays_offline (now : Z) (resp : list Z) (s : State) :
  isUnoOnline s = false ->
  length resp <> 10%nat ->
  isUnoOnline (fst (handleI2CCommunication now resp s)) = false.
Proof.
  intros Hoff Hlen. unfold handleI2CCommunication.
  destruct (elapsed now (lastI2CCheckMillis s) >=? I2C_CHECK_INTERVAL_MS);
    [|exact Hoff].
  destruct (Z.of_nat (length resp) =? 10) eqn:E;
    [apply Z.eqb_eq in E; lia | reflexivity].
Qed.

(** X17.  The wait for the peripheral in [setup] ends only with the link
    up, so that the start-up call [playTrack(1)] that follows always puts
    'P', 1 on the bus; it ends at the first due poll that returns ten
    bytes, with that poll's state and effects; and as long as every bus
    answer has another length it does not end. *)
Theorem X17_setup_waits_for_a_well_formed_frame :
  (forall (ticks : list (Z * list Z)) (s s' : State) (out : list Effect),
     wait_for_uno ticks s = Some (s', out) ->
     isUnoOnline s' = true /\
     transmissions (snd (playTrack 1 s')) = [[80; 1]]) /\
  (forall (now : Z) (resp : list Z) (rest : list (Z * list Z)) (s : State),
     isUnoOnline s = false ->
     I2C_CHECK_INTERVAL_MS <= elapsed now (lastI2CCheckMillis s) ->
     length resp = 10%nat ->
     wait_for_uno ((now, resp) :: rest) s
     = Some (handleI2CCommunication now resp s)) /\
  (forall (ticks : list (Z * list Z)) (s : State),
     isUnoOnline s = false ->
     Forall (fun tick => length (snd tick) <> 10%nat) ticks ->
     wait_for_uno ticks s = None).
Proof.
  split; [|split].
  - intros ticks s s' out Hw.
    pose proof (wait_for_uno_online ticks s s' out Hw) as Hon.
    split; [exact Hon|]. apply (playTrack_online 1 s' Hon).
  - intros now resp rest s Hoff Hdue Hlen. simpl. rewrite Hoff.
    assert (Hon : isUnoOnline (fst (handleI2CCommunication now resp s))
                  = true).
    { unfold handleI2CCommunication.
      rewrite Z.geb_leb. apply Z.leb_le in Hdue. rewrite Hdue.
      rewrite Hlen. simpl Z.eqb. cbv iota.
      destruct (byte_at resp 0 =? 0); [reflexivity|].
      unfold apply_frame.
      destruct (byte_at resp 0 =? 1); [reflexivity|].
      destruct (byte_at resp 0 =? 2); reflexivity. }
    destruct (handleI2CCommunication now resp s) as [s1 out1].
    simpl in Hon. destruct rest as [|[now2 resp2] rest]; simpl;
      rewrite Hon, app_nil_r; reflexivity.
  - intros ticks.
    induction ticks as [|[now resp] rest IH]; intros s Hoff Hall; simpl;
      rewrite Hoff; [reflexivity|].
    inversion Hall as [|tick l Hhd Htl]; subst. simpl in Hhd.
    pose proof (poll_short_stays_offline now resp s Hoff Hhd) as Hoff1.
    destruct (handleI2CCommunication now resp s) as [s1 out1].
    simpl in Hoff1. rewrite (IH s1 Hoff1 Htl). reflexivity.
Qed.

(** The peripheral answers nothing at 500 ms and an Idle frame at
    1000 ms; the activations in between are not due. *)
Lemma X17_witness :
  exists (s' : State) (out : list Effect),
    wait_for_uno [(500, []); (700, []); (1000, idle_frame); (1100, [])]
                 init = Some (s', out) /\
    isUnoOnline s' = true /\
    transmissions (snd (playTrack 1 s')) = [[80; 1]].
Proof.
  eexists. eexists. split; [reflexivity|].
  eapply (proj1 X17_setup_waits_for_a_well_formed_frame
            [(500, []); (700, []); (1000, idle_frame); (1100, [])] init).
  reflexivity.
Defined.

(** X18.  [startBlinkingLED] sets the time of the last toggle to zero
    rather than to the present, so the first animation tick after it
    toggles at once whenever the clock reads at least the interval: it
    drives the chosen channel low and restarts the interval from that
    tick.  Only when the clock reads less than the interval does the
    first tick leave everything as it is. *)
Theorem X18_blinking_starts_on_the_first_tick (pin : ascii) (ms now : Z)
    (s : State) :
  0 <= now < ULONG_MOD ->
  let s0 := startBlinkingLED pin ms s in
  let r := handleBlink now s0 in
  if ms mod 65536 <=? now
  then snd r = channel_writes pin LOW /\
       blinkLedState (fst r) = LOW /\
       previousBlinkMillis (fst r) = now /\
       isBlinking (fst r) = true
  else r = (s0, []).
Proof.
  intros Hnow. cbv zeta. unfold handleBlink, startBlinkingLED. simpl.
  unfold elapsed. rewrite Z.sub_0_r, (Z.mod_small now ULONG_MOD) by exact Hnow.
  rewrite Z.geb_leb.
  destruct (ms mod 65536 <=? now); repeat split.
Qed.

(** Green blinking with interval 300 is started; the first tick comes
    when the clock reads 4000. *)
Lemma X18_witness :
  snd (handleBlink 4000 (startBlinkingLED "G" 300 init))
  = [DigitalWrite LED_G_PIN LOW].
Proof.
  pose proof (X18_blinking_starts_on_the_first_tick "G" 300 4000 init)
    as H.
  simpl in H. apply H. unfold ULONG_MOD. lia.
Defined.

End Startup.

Section PollOfAReachablePeripheral.

(** X19.  Whatever state the peripheral has reached, its answer to a poll
    keeps the link up: a due poll of the coordinator that receives it
    ends with the link flag set, and prints the gain line only if the
    link was down before. *)
Theorem X19_a_running_peripheral_keeps_the_link_up (now : Z)
    (u : UNO.State) (m : MCU.State) :
  UNO.reachable u ->
  MCU.I2C_CHECK_INTERVAL_MS <= elapsed now (MCU.lastI2CCheckMillis m) ->
  let r := MCU.handleI2CCommunication now (fst (UNO.requestEvent u)) m in
  MCU.isUnoOnline (fst r) = true /\
  MCU.link_lines (snd r)
  = (if MCU.isUnoOnline m then [] else [MCU.Println MCU.LogOnline]).
Proof.
  intros Hr Hdue. cbv zeta.
  destruct (reachable_queue_inv u Hr) as [Hlen _].
  assert (Hframe : length (fst (UNO.requestEvent u)) = 10%nat).
  { unfold UNO.requestEvent.
    destruct (UNO.newCardDataAvailable u);
      [|destruct (UNO.newENVDataAvailable u)]; simpl;
      rewrite ?take_ge by (rewrite Hlen; reflexivity);
      first [exact Hlen | reflexivity]. }
  assert (Hon : MCU.isUnoOnline
                  (fst (MCU.handleI2CCommunication now
                          (fst (UNO.requestEvent u)) m)) = true).
  { unfold MCU.handleI2CCommunication.
    rewrite Z.geb_leb. apply Z.leb_le in Hdue. rewrite Hdue.
    rewrite Hframe. simpl Z.eqb. cbv iota.
    destruct (byte_at _ 0 =? 0); [reflexivity|].
    unfold MCU.apply_frame.
    destruct (byte_at _ 0 =? 1); [reflexivity|].
    destruct (byte_at _ 0 =? 2); reflexivity. }
  split; [exact Hon|].
  rewrite link_lines_step. cbv zeta. rewrite Hon.
  destruct (MCU.isUnoOnline m); reflexivity.
Qed.

(** The peripheral holds a card and a reading; the coordinator, freshly
    started, polls it. *)
Lemma X19_witness :
  MCU.isUnoOnline
    (fst (MCU.handleI2CCommunication 500
            (fst (UNO.requestEvent card_then_env)) MCU.init)) = true.
Proof.
  apply (X19_a_running_peripheral_keeps_the_link_up 500 card_then_env
           MCU.init).
  - exists [UNO.EvRFID 200 (Some card_DEADBEEF);
            UNO.EvENV 2500 (UNO.DhtOk 250 50) 512]. reflexivity.
  - vm_compute. discriminate.
Defined.

End PollOfAReachablePeripheral.
